(** * Travel-planning agent: session memory and tool-dispatch loop

    A shallow embedding of [main.py] (session construction, the chat
    endpoint and its tool-calling loop) and of the two preference tools of
    [tools.py], followed by the properties of the orchestration core.

    Python state (the [chat_sessions] dict, the preference store behind
    [prefs_db]) is threaded explicitly through a small state-and-exception
    monad, together with a trace of what the run does to the outside.  The
    [while True] loop takes fuel.  Everything outside the repository (the Model Gateway behind
    [chat.send_message], the network-bound tools, faults of the vector
    store, the text of run-time exception messages) is an oracle collected
    in the record [Env]. *)

From stdpp Require Import base option strings pretty list gmap.

Open Scope string_scope.
Open Scope list_scope.
Open Scope nat_scope.

#[local] Set Warnings "-register-all".

(** ** Python values and JSON documents *)

(** Values the model can put into a tool call's argument mapping.  Numbers
    are kept as integers and structs are left out: no code path of the
    repository computes with either. *)
Inductive Value :=
| VNone
| VBool (b : bool)
| VNum (z : Z)
| VStr (s : string)
| VList (l : list Value).

(** Python truthiness, as used by [if not user_id]. *)
Definition truthy (v : Value) : bool :=
  match v with
  | VNone => false
  | VBool b => b
  | VNum z => negb (Z.eqb z 0)
  | VStr s => negb (String.eqb s "")
  | VList l => match l with [] => false | _ => true end
  end.

(** [not v] *)
Definition py_not (v : Value) : bool := negb (truthy v).

(** Python [==] on values ([True == 1] holds, a [str] equals only a [str]). *)
Fixpoint py_eqb (a b : Value) {struct a} : bool :=
  match a, b with
  | VNone, VNone => true
  | VBool x, VBool y => Bool.eqb x y
  | VBool x, VNum z => Z.eqb z (Z.b2z x)
  | VNum z, VBool x => Z.eqb z (Z.b2z x)
  | VNum x, VNum y => Z.eqb x y
  | VStr x, VStr y => String.eqb x y
  | VList x, VList y =>
      (fix go (x y : list Value) {struct x} : bool :=
         match x, y with
         | [], [] => true
         | u :: x', v :: y' => py_eqb u v && go x' y'
         | _, _ => false
         end) x y
  | _, _ => false
  end.

(** [tool_args]: the dict built from [fc.args.items()], later splatted as
    keyword arguments. *)
Abbreviation Args := (gmap string Value).

Inductive Json :=
| JNull
| JStr (s : string)
| JList (l : list Json)
| JObj (fields : list (string * Json)).

(** A Python [str] returned by a tool.  A string produced by [json.dumps]
    is kept as the document it encodes, so that [json.loads] of it gives
    the document back; any other string is [Plain]. *)
Inductive Text :=
| Plain (s : string)
| JsonText (j : Json).

Definition json_dumps (j : Json) : Text := JsonText j.

(** ** Exceptions *)

Inductive exn :=
| TypeError_call (fname : string) (kwargs : Args)
    (* a keyword-argument binding that does not fit the signature *)
| TypeError_join
    (* [str.join] over a list with a non-string item *)
| ValidationError (v : Value)
    (* [Document(page_content=v)] with [v] not a string *)
| JSONDecodeError (s : string)
| AttributeError_items
    (* [fc.args.items()] on a call whose [args] is [None] *)
| ExternalError (msg : string).
    (* raised by a service outside the repository *)

Inductive reply (A : Type) :=
| Ok (a : A)
| Fail (e : exn).
Arguments Ok {A} a.
Arguments Fail {A} e.

(** ** Conversation data *)

Inductive Role := user | model.

(** A tool call as the client library hands it over: [fc.args] is [None]
    when the call carries no argument mapping. *)
Record FunctionCall := { fc_name : string; fc_args : option Args }.

(** The truth value of a call in [if not part.function_call]: a message
    of the client library is true when one of its fields is set, so a call
    without a name and without an argument mapping counts as no call. *)
Definition function_call_set (fc : FunctionCall) : bool :=
  negb (String.eqb (fc_name fc) "")
  || match fc_args fc with Some _ => true | None => false end.

(** The payload of a tool result: [{"result": ...}] or [{"error": ...}]. *)
Inductive ToolPayload :=
| PayloadResult (tool_result : Text)
| PayloadError (msg : string).

(** One content part.  A part holds one kind of data; [part_text] and
    [part_function_call] are the accessors the endpoint reads:
    [part_function_call] gives the call when [part.function_call] is true,
    and a part without text has the empty string as [text]. *)
Inductive Part :=
| PText (s : string)
| PFunctionCall (fc : FunctionCall)
| PFunctionResponse (name : string) (response : ToolPayload)
| PData.

Definition part_text (p : Part) : string :=
  match p with PText s => s | _ => "" end.

Definition part_function_call (p : Part) : option FunctionCall :=
  match p with
  | PFunctionCall fc => if function_call_set fc then Some fc else None
  | _ => None
  end.

Record Turn := { role : Role; parts : list Part }.

(** The [content] of a candidate has a role and parts, like a turn of the
    history. *)
Record Candidate := { content : Turn }.

Record Response := { candidates : list Candidate }.

Record ChatSession := { history : list Turn }.

Record ChatRequest := { user_id : string; message : string }.

(** The dict [{"user_id": ..., "response": ...}] the endpoint returns. *)
Record ChatReply := { reply_user_id : string; response : string }.

(** ** The preference store *)

Record Document := { page_content : string; metadata : gmap string Value }.

(** [prefs_db.docstore._dict] in insertion order; the loading loop ignores
    the document ids, so only the documents are kept. *)
Abbreviation Docstore := (list Document).

Inductive StoreOp := OpDocstore | OpAddDocuments | OpSaveLocal.

(** ** Observable events

    What a run does to the outside, in order: accesses of the vector store,
    calls of a registered tool with the keyword arguments passed to it, and
    messages sent to the Model Gateway through the session of a user. *)

Inductive Event :=
| EvStore (op : StoreOp)
| EvTool (name : string) (kwargs : Args)
| EvSend (chat : string) (msg : Part).

(** ** Process state *)

Record World := {
  chat_sessions : gmap string ChatSession;
  prefs_db : Docstore;
  gateway_calls : nat;
  trace : list Event
}.

Definition set_chat_sessions (f : gmap string ChatSession → gmap string ChatSession)
    (w : World) : World :=
  {| chat_sessions := f (chat_sessions w); prefs_db := prefs_db w;
     gateway_calls := gateway_calls w; trace := trace w |}.

Definition set_prefs_db (f : Docstore → Docstore) (w : World) : World :=
  {| chat_sessions := chat_sessions w; prefs_db := f (prefs_db w);
     gateway_calls := gateway_calls w; trace := trace w |}.

Definition log (ev : Event) (w : World) : World :=
  {| chat_sessions := chat_sessions w; prefs_db := prefs_db w;
     gateway_calls := gateway_calls w; trace := trace w ++ [ev] |}.

Definition count_gateway_call (w : World) : World :=
  {| chat_sessions := chat_sessions w; prefs_db := prefs_db w;
     gateway_calls := S (gateway_calls w); trace := trace w |}.

(** ** The environment *)

Record Env := {
  (** what the Model Gateway answers to the [k]-th [send_message] of the
      process: a response, or an exception (transport, authentication) *)
  gateway : nat → reply Response;
  (** the bodies of the five tools that only talk to the network or to the
      knowledge base, at a given moment (number of events so far) *)
  external_tool : nat → string → Args → reply Text;
  (** a fault of the vector store at a given moment *)
  store_fault : nat → StoreOp → option exn;
  (** [str(e)] *)
  exn_str : exn → string;
  (** [json.loads] on a string that did not come from [json.dumps] *)
  loads_plain : string → reply Json
}.

(** ** The monad: state, exceptions, fuel *)

Inductive outcome (A : Type) :=
| Returns (a : A)
| Raises (e : exn)
| OutOfFuel.
Arguments Returns {A} a.
Arguments Raises {A} e.
Arguments OutOfFuel {A}.

Definition M (A : Type) : Type := World → outcome A * World.

#[global] Instance M_ret : MRet M := λ A a w, (Returns a, w).

#[global] Instance M_bind : MBind M := λ A B k c w,
  match c w with
  | (Returns a, w') => k a w'
  | (Raises e, w') => (Raises e, w')
  | (OutOfFuel, w') => (OutOfFuel, w')
  end.

Definition raise {A} (e : exn) : M A := λ w, (Raises e, w).

Definition out_of_fuel {A} : M A := λ w, (OutOfFuel, w).

(** [try: body except Exception as e: handler e] *)
Definition try_except {A} (body : M A) (handler : exn → M A) : M A := λ w,
  match body w with
  | (Raises e, w') => handler e w'
  | r => r
  end.

Definition emit (ev : Event) : M () := λ w, (Returns (), log ev w).

Definition of_reply {A} (r : reply A) : M A :=
  match r with Ok a => mret a | Fail e => raise e end.

Definition get_world : M World := λ w, (Returns w, w).

Definition modify (f : World → World) : M () := λ w, (Returns (), f w).

(** ** tools.py *)

Section Agent.

Variable E : Env.

(** One access of the vector store: it is recorded, and raises when the
    store is at fault at that moment. *)
Definition store_op (op : StoreOp) : M () := λ w,
  match store_fault E (length (trace w)) op with
  | Some e => (Raises e, log (EvStore op) w)
  | None => (Returns (), log (EvStore op) w)
  end.

Definition user_id_error : Text :=
  json_dumps (JObj [("error", JStr "System error: user_id was not provided to tool.")]).

(** The body of the loop over [docstore.items()]. *)
Definition collect_prefs (user_id : Value) (docstore : Docstore) : list string :=
  foldl (λ user_prefs doc,
           if py_eqb (default VNone (metadata doc !! "user_id")) user_id
           then user_prefs ++ [page_content doc]
           else user_prefs)
        [] docstore.

(** [load_preferences(user_id=None)] *)
Definition load_preferences (user_id : Value) : M Text :=
  if py_not user_id then mret user_id_error
  else
    try_except
      (_ ← store_op OpDocstore;
       w ← get_world;
       let docstore := prefs_db w in
       match docstore with
       | [] => mret (json_dumps (JList []))
       | _ =>
           let user_prefs := collect_prefs user_id docstore in
           match user_prefs with
           | [] => mret (json_dumps (JList []))
           | _ => mret (json_dumps (JList (JStr <$> user_prefs)))
           end
       end)
      (λ e, mret (json_dumps (JObj [("error", JStr (exn_str E e))]))).

(** [save_preference(preference, user_id=None)].  [Document] accepts only
    a string as [page_content]; past that point [preference] is one, and
    the f-string prints it as it is. *)
Definition save_preference (preference : Value) (user_id : Value) : M Text :=
  if py_not user_id then mret user_id_error
  else
    try_except
      (match preference with
       | VStr p =>
           let new_doc :=
             {| page_content := p;
                metadata := <["user_id" := user_id]> (<["type" := VStr "preference"]> ∅) |} in
           _ ← store_op OpAddDocuments;
           _ ← modify (set_prefs_db (λ docs, docs ++ [new_doc]));
           _ ← store_op OpSaveLocal;
           mret (Plain ("Successfully saved preference: '" +:+ p +:+ "'"))
       | _ => raise (ValidationError preference)
       end)
      (λ e, mret (Plain ("Error saving preference: " +:+ exn_str E e))).

(** *** Calling a tool with keyword arguments *)

Abbreviation Handler := (Args → M Text).

Record Signature := { required : list string; optional : list string }.

(** A call that splats the dict [kwargs] binds when every required
    parameter is given and every keyword names a parameter. *)
Definition binds (sg : Signature) (kwargs : Args) : bool :=
  forallb (λ p, bool_decide (is_Some (kwargs !! p))) (required sg)
  && bool_decide (map_Forall (λ k _, k ∈ required sg ++ optional sg) kwargs).

Definition def (fname : string) (sg : Signature) (body : Args → M Text) : Handler :=
  λ kwargs, if binds sg kwargs then body kwargs else raise (TypeError_call fname kwargs).

(** A tool whose body is outside the orchestration core. *)
Definition external (fname : string) (sg : Signature) : Handler :=
  def fname sg (λ kwargs w,
    of_reply (external_tool E (length (trace w)) fname kwargs) w).

Definition arg (kwargs : Args) (p : string) : Value := default VNone (kwargs !! p).

Definition get_weather : Handler :=
  external "get_weather" {| required := ["city"]; optional := [] |}.
Definition web_search : Handler :=
  external "web_search" {| required := ["query"]; optional := [] |}.
Definition find_hotels : Handler :=
  external "find_hotels" {| required := ["city"]; optional := ["preferences"] |}.
Definition search_knowledge : Handler :=
  external "search_knowledge" {| required := ["query"]; optional := [] |}.
Definition find_flights : Handler :=
  external "find_flights"
    {| required := ["origin_city"; "destination_city"; "travel_date"]; optional := [] |}.

Definition tool_save_preference : Handler :=
  def "save_preference" {| required := ["preference"]; optional := ["user_id"] |}
    (λ kwargs, save_preference (arg kwargs "preference") (arg kwargs "user_id")).

Definition tool_load_preferences : Handler :=
  def "load_preferences" {| required := []; optional := ["user_id"] |}
    (λ kwargs, load_preferences (arg kwargs "user_id")).

(** [available_tools], each with its [__name__]. *)
Definition available_tools : list (string * Handler) :=
  [ ("get_weather", get_weather);
    ("web_search", web_search);
    ("find_hotels", find_hotels);
    ("search_knowledge", search_knowledge);
    ("save_preference", tool_save_preference);
    ("load_preferences", tool_load_preferences);
    ("find_flights", find_flights) ].

(** ** main.py *)

Definition tool_registry : gmap string Handler := list_to_map available_tools.

(** The two turns every history starts with. *)
Definition system_rule : string :=
  "SYSTEM_RULE: You are a helpful and expert travel planning agent. "
  +:+ "Your goal is to help the user plan a trip to any city. "
  +:+ "First, understand their preferences (like 'vegetarian' or 'museums'). "
  +:+ "Then, use your tools (web_search, get_weather) to build a plan. "
  +:+ "After you have presented the plan, ALWAYS proactively ask the user if they would also like help finding hotels OR flights for their trip."
  +:+ "CRITICAL RULE: You must *never* show your internal reasoning, thoughts, or the specific tools you are calling (e.g., 'Tool Call: web_search...'). "
  +:+ "You must synthesize the information from your tools and present only the final, helpful answer directly to the user.".

Definition policy_statement : Turn :=
  {| role := user; parts := [PText system_rule] |}.

Definition policy_acknowledgment : Turn :=
  {| role := model;
     parts := [PText "Understood. I am a helpful travel agent. I will follow your rules."] |}.

(** [json.loads] *)
Definition json_loads (t : Text) : M Json :=
  match t with
  | JsonText j => mret j
  | Plain s => of_reply (loads_plain E s)
  end.

(** [sep.join(items)]: every item has to be a string. *)
Fixpoint str_join (sep : string) (items : list Json) : M string :=
  match items with
  | [] => mret ""
  | JStr s :: rest =>
      match rest with
      | [] => mret s
      | _ => tail ← str_join sep rest; mret (s +:+ sep +:+ tail)
      end
  | _ :: _ => raise TypeError_join
  end.

Definition preferences_turn (summary : string) : Turn :=
  {| role := user;
     parts := [PText ("Please remember these are my long-term preferences: " +:+ summary)] |}.

Definition preferences_acknowledgment : Turn :=
  {| role := model; parts := [PText "Understood. I have loaded your preferences."] |}.

(** [model.start_chat(history=history)] *)
Definition start_chat (history : list Turn) : ChatSession := {| history := history |}.

(** Step 2 of session creation.  [history] is a local list that the [try]
    block appends to; every statement that can raise comes before the
    first [append], so the handler finds the list as it was. *)
Definition seed_history (user_id : string) (history : list Turn) : M (list Turn) :=
  try_except
    (prefs_json ← load_preferences (VStr user_id);
     prefs ← json_loads prefs_json;
     match prefs with
     | JList ((_ :: _) as items) =>
         summary ← str_join "; " items;
         let history := history ++ [preferences_turn summary] in
         let history := history ++ [preferences_acknowledgment] in
         mret history
     | _ => mret history
     end)
    (λ e, mret history).

(** [get_chat_session(user_id)] *)
Definition get_chat_session (user_id : string) : M ChatSession :=
  w ← get_world;
  match chat_sessions w !! user_id with
  | Some chat => mret chat
  | None =>
      let history := [policy_statement; policy_acknowledgment] in
      history ← seed_history user_id history;
      let chat := start_chat history in
      _ ← modify (set_chat_sessions (λ sessions, <[user_id := chat]> sessions));
      mret chat
  end.

(** What the client library keeps of one exchange: the message sent and
    the content of the first candidate. *)
Definition record_exchange (msg : Part) (r : Response) (chat : ChatSession) : ChatSession :=
  {| history :=
       history chat ++ [{| role := user; parts := [msg] |}]
       ++ match candidates r with
          | c :: _ => [content c]
          | [] => []
          end |}.

(** [chat.send_message(msg)] on the session object stored under the key
    [chat] of [chat_sessions]: one call of the Model Gateway. *)
Definition send_message (chat : string) (msg : Part) : M Response := λ w,
  let w' := count_gateway_call (log (EvSend chat msg) w) in
  match gateway E (gateway_calls w) with
  | Ok r => (Returns r, set_chat_sessions (alter (record_exchange msg r) chat) w')
  | Fail e => (Raises e, w')
  end.

(** [response.candidates[0].content.parts[0]], when both lists are
    non-empty. *)
Definition leading_part (r : Response) : option Part :=
  match candidates r with
  | [] => None
  | c :: _ =>
      match parts (content c) with
      | [] => None
      | part :: _ => Some part
      end
  end.

Definition function_response (name : string) (payload : ToolPayload) : Part :=
  PFunctionResponse name payload.

(** The tools that receive the caller's identity. *)
Definition identity_tools : list string := ["save_preference"; "load_preferences"].

Definition inject_identity (req : ChatRequest) (tool_name : string) (tool_args : Args) : Args :=
  if bool_decide (tool_name ∈ identity_tools)
  then <["user_id" := VStr (user_id req)]> tool_args
  else tool_args.

(** The body of [while True], from the response in hand; each iteration
    takes one unit of fuel.  Copying [fc.args.items()] raises when the call
    has no argument mapping, outside every [try].  The call
    [function_to_call] with the splatted [tool_args] is recorded as an
    [EvTool] event. *)
Fixpoint tool_loop (fuel : nat) (req : ChatRequest) (response : Response) {struct fuel}
    : M Response :=
  match fuel with
  | 0 => out_of_fuel
  | S fuel =>
      match leading_part response with
      | None => mret response
      | Some part =>
          match part_function_call part with
          | None => mret response
          | Some fc =>
              let tool_name := fc_name fc in
              match fc_args fc with
              | None => raise AttributeError_items
              | Some tool_args =>
                  match tool_registry !! tool_name with
                  | None =>
                      response ← send_message (user_id req)
                        (function_response tool_name
                           (PayloadError ("Unknown tool: " +:+ tool_name)));
                      tool_loop fuel req response
                  | Some function_to_call =>
                      let tool_args := inject_identity req tool_name tool_args in
                      response ←
                        try_except
                          (tool_result ← (_ ← emit (EvTool tool_name tool_args);
                                          function_to_call tool_args);
                           send_message (user_id req)
                             (function_response tool_name (PayloadResult tool_result)))
                          (λ e,
                             send_message (user_id req)
                               (function_response tool_name
                                  (PayloadError
                                     ("Error executing tool: " +:+ exn_str E e))));
                      tool_loop fuel req response
                  end
              end
          end
      end
  end.

Definition apology : string := "Sorry, I encountered an error.".

(** The part of [chat_endpoint] after the loop. *)
Definition final_reply (req : ChatRequest) (response : Response) : ChatReply :=
  match leading_part response with
  | Some part =>
      if negb (String.eqb (part_text part) "")
      then {| reply_user_id := user_id req; response := part_text part |}
      else {| reply_user_id := user_id req; response := apology |}
  | None => {| reply_user_id := user_id req; response := apology |}
  end.

(** [chat_endpoint(request)] *)
Definition chat_endpoint (fuel : nat) (req : ChatRequest) : M ChatReply :=
  chat ← get_chat_session (user_id req);
  try_except
    (response ← send_message (user_id req) (PText (message req));
     mret (inl response))
    (λ e, mret (inr {| reply_user_id := user_id req;
                       response := "Sorry, I encountered an error: " +:+ exn_str E e |}))
  ≫= λ first,
  match first with
  | inr error_reply => mret error_reply
  | inl response =>
      response ← tool_loop fuel req response;
      mret (final_reply req response)
  end.

End Agent.

(** ** Observations on runs *)

(** The response asks for a tool: the first part of its first candidate
    is a tool call with its argument mapping.  Read off the data, not
    through the accessors of the endpoint. *)
Definition requests_tool (r : Response) : bool :=
  match candidates r with
  | {| content := {| parts := PFunctionCall {| fc_args := Some _ |} :: _ |} |} :: _ => true
  | _ => false
  end.

(** The first part of the first candidate is a tool call that names a
    tool or carries arguments. *)
Definition leads_with_call (r : Response) : bool :=
  match candidates r with
  | {| content := {| parts := PFunctionCall {| fc_name := name; fc_args := args |} :: _ |} |}
    :: _ =>
      match name, args with
      | "", None => false
      | _, _ => true
      end
  | _ => false
  end.

Definition is_tool_result (ev : Event) : bool :=
  match ev with
  | EvSend _ (PFunctionResponse _ _) => true
  | _ => false
  end.

(** Tool rounds so far: the tool results sent to the Model Gateway. *)
Definition tool_rounds (w : World) : nat :=
  length (List.filter is_tool_result (trace w)).

(** What running a tool may do to the process: it leaves the sessions and
    the gateway alone and only adds events that are not sends. *)
Definition tool_frame (w w' : World) : Prop :=
  chat_sessions w' = chat_sessions w
  ∧ gateway_calls w' = gateway_calls w
  ∧ tool_rounds w' = tool_rounds w
  ∧ trace w `prefix_of` trace w'.

Definition framed {A} (c : M A) : Prop :=
  ∀ w, tool_frame w (c w).2 ∧ (c w).1 ≠ OutOfFuel.


(** The process state right after a [send_message] that was answered. *)
Definition exchanged (chat : string) (msg : Part) (r : Response) (w : World) : World :=
  set_chat_sessions (alter (record_exchange msg r) chat)
    (count_gateway_call (log (EvSend chat msg) w)).

(** * Scenarios

    Concrete environments and states on which the model is run. *)

(** The parameters of the tools, as [tools.py] declares them. *)
Definition tool_signatures : list (string * Signature) :=
  [ ("get_weather", {| required := ["city"]; optional := [] |});
    ("web_search", {| required := ["query"]; optional := [] |});
    ("find_hotels", {| required := ["city"]; optional := ["preferences"] |});
    ("search_knowledge", {| required := ["query"]; optional := [] |});
    ("save_preference", {| required := ["preference"]; optional := ["user_id"] |});
    ("load_preferences", {| required := []; optional := ["user_id"] |});
    ("find_flights",
     {| required := ["origin_city"; "destination_city"; "travel_date"]; optional := [] |}) ].

Definition quoted (name : string) : string := "'" +:+ name +:+ "'".

(** Python's list of missing arguments: ['a'], ['a' and 'b'],
    ['a', 'b', and 'c']. *)
Fixpoint quoted_tail (names : list string) : string :=
  match names with
  | [] => ""
  | [a; b] => quoted a +:+ ", and " +:+ quoted b
  | a :: rest => quoted a +:+ ", " +:+ quoted_tail rest
  end.

Definition quoted_names (names : list string) : string :=
  match names with
  | [a] => quoted a
  | [a; b] => quoted a +:+ " and " +:+ quoted b
  | _ => quoted_tail names
  end.

(** Python's text for a call whose keywords do not fit the signature: a
    keyword that is no parameter is reported first, then the required
    parameters that are missing.  (Of several keywords that do not fit,
    Python names the first of the dict; the mapping has no order, and the
    first of its listing is named.) *)
Definition render_type_error (fname : string) (kwargs : Args) : string :=
  let sg := default {| required := []; optional := [] |}
              (snd <$> List.find (λ entry, String.eqb (fst entry) fname) tool_signatures) in
  let unexpected :=
    List.filter (λ k, negb (bool_decide (k ∈ required sg ++ optional sg)))
                (fst <$> map_to_list kwargs) in
  match unexpected with
  | k :: _ => fname +:+ "() got an unexpected keyword argument " +:+ quoted k
  | [] =>
      let missing :=
        List.filter (λ p, negb (bool_decide (is_Some (kwargs !! p)))) (required sg) in
      fname +:+ "() missing " +:+ pretty (length missing)
      +:+ " required positional argument"
      +:+ (match missing with [_] => "" | _ => "s" end)
      +:+ ": " +:+ quoted_names missing
  end.

(** [str(e)].  The texts of [str.join], of the document validation and of
    the JSON decoder are the libraries' own and are cut to their first
    words. *)
Definition render_exn (e : exn) : string :=
  match e with
  | TypeError_call fname kwargs => render_type_error fname kwargs
  | TypeError_join => "sequence item"
  | ValidationError _ => "1 validation error for Document"
  | JSONDecodeError _ => "Expecting value"
  | AttributeError_items => "'NoneType' object has no attribute 'items'"
  | ExternalError msg => msg
  end.

(** An environment without store faults whose gateway answers its [k]-th
    call with [replies k]. *)
Definition oracle (replies : nat → reply Response) : Env :=
  {| gateway := replies;
     external_tool := λ _ fname _, Ok (Plain ("result of " +:+ fname));
     store_fault := λ _ _, None;
     exn_str := render_exn;
     loads_plain := λ s, Fail (JSONDecodeError s) |}.

Definition unavailable : exn := ExternalError "503 Service Unavailable".

(** The gateway follows [script] and is unavailable once the script is
    used up. *)
Definition scripted (script : list (reply Response)) : Env :=
  oracle (λ k, default (Fail unavailable) (script !! k)).

Definition says (text : string) : Response :=
  {| candidates := [{| content := {| role := model; parts := [PText text] |} |}] |}.

Definition asks (name : string) (args : Args) : Response :=
  {| candidates :=
       [{| content :=
             {| role := model;
                parts := [PFunctionCall {| fc_name := name; fc_args := Some args |}] |} |}] |}.

Definition preference_of (uid text : string) : Document :=
  {| page_content := text;
     metadata := <["user_id" := VStr uid]> (<["type" := VStr "preference"]> ∅) |}.

Definition fresh_world : World :=
  {| chat_sessions := ∅; prefs_db := []; gateway_calls := 0; trace := [] |}.

(** A fresh process whose store already holds preferences of two users. *)
Definition stocked_world : World :=
  {| chat_sessions := ∅;
     prefs_db := [preference_of "u1" "I am vegetarian";
                  preference_of "u2" "window seat";
                  preference_of "u1" "I like museums"];
     gateway_calls := 0; trace := [] |}.

(** A process in which [u1] already has a session with one exchange. *)
Definition live_session : ChatSession :=
  {| history := [policy_statement; policy_acknowledgment;
                 {| role := user; parts := [PText "Plan a trip to Lisbon"] |};
                 {| role := model; parts := [PText "Here is a plan."] |}] |}.

Definition live_world : World :=
  {| chat_sessions := <["u1" := live_session]> ∅;
     prefs_db := [preference_of "u1" "I am vegetarian"];
     gateway_calls := 1;
     trace := [EvStore OpDocstore; EvSend "u1" (PText "Plan a trip to Lisbon")] |}.

Definition lisbon_request : ChatRequest :=
  {| user_id := "u1"; message := "Plan a trip to Lisbon" |}.

(** The gateway asks for the weather once and then gives its plan. *)
Definition lisbon_replies (k : nat) : Response :=
  match k with
  | 0 => asks "get_weather" (<["city" := VStr "Lisbon"]> ∅)
  | _ => says "Lisbon will be sunny; here is your plan."
  end.

(** The process once the first message of [u1] has been sent. *)
Definition awaiting_world : World :=
  {| chat_sessions := <["u1" := start_chat [policy_statement; policy_acknowledgment]]> ∅;
     prefs_db := [];
     gateway_calls := 1;
     trace := [EvStore OpDocstore; EvSend "u1" (PText "Plan a trip to Lisbon")] |}.


Definition weather_call_without_city : FunctionCall :=
  {| fc_name := "get_weather"; fc_args := Some ∅ |}.

(** The model tries to save a preference under another user's name. *)
Definition spoofed_save : Args :=
  <["user_id" := VStr "admin"]> (<["preference" := VStr "I am vegetarian"]> ∅).

Definition anonymous_request : ChatRequest := {| user_id := ""; message := "hi" |}.

(** ** Reading the preference store *)

(** The test of the loading loop: the document carries [user_id] in its
    metadata. *)
Definition owned_by (user_id : Value) (doc : Document) : bool :=
  py_eqb (default VNone (metadata doc !! "user_id")) user_id.

(** The preferences the store holds for [user_id], oldest first. *)
Definition stored_preferences (user_id : Value) (docstore : Docstore) : list string :=
  page_content <$> List.filter (owned_by user_id) docstore.

(** The vector store never fails. *)
Definition no_faults (E : Env) : Prop := ∀ moment op, store_fault E moment op = None.

(** The process state after a [save_preference] that went through. *)
Definition saved (doc : Document) (w : World) : World :=
  log (EvStore OpSaveLocal)
    (set_prefs_db (λ docs, docs ++ [doc]) (log (EvStore OpAddDocuments) w)).

(** An environment like [scripted], with a vector store that fails on
    every access of kind [broken]. *)
Definition faulty (broken : StoreOp) (script : list (reply Response)) : Env :=
  {| gateway := λ k, default (Fail unavailable) (script !! k);
     external_tool := λ _ fname _, Ok (Plain ("result of " +:+ fname));
     store_fault := λ _ op,
       match broken, op with
       | OpDocstore, OpDocstore | OpAddDocuments, OpAddDocuments
       | OpSaveLocal, OpSaveLocal => Some (ExternalError "store unavailable")
       | _, _ => None
       end;
     exn_str := render_exn;
     loads_plain := λ s, Fail (JSONDecodeError s) |}.

(** ** Sessions across a run *)

(** A computation moves the session map along the relation [R]. *)
Definition sessions_step (R : relation (gmap string ChatSession)) {A} (c : M A) : Prop :=
  ∀ w, R (chat_sessions w) (chat_sessions (c w).2).

(** The session of [other] is the same before and after. *)
Definition untouched (other : string) : relation (gmap string ChatSession) :=
  λ m m', m' !! other = m !! other.

(** Every session is still there and its history has only been added to. *)
Definition grown : relation (gmap string ChatSession) :=
  λ m m', ∀ uid chat, m !! uid = Some chat →
          ∃ chat', m' !! uid = Some chat' ∧ history chat `prefix_of` history chat'.

(** Every session of the process starts with the policy pair. *)
Definition well_seeded (w : World) : Prop :=
  ∀ uid chat, chat_sessions w !! uid = Some chat →
              take 2 (history chat) = [policy_statement; policy_acknowledgment].

(** What [chat_endpoint] does once it has the session: the first send,
    the loop and the reply. *)
Definition converse (E : Env) (fuel : nat) (req : ChatRequest) : M ChatReply :=
  try_except
    (response ← send_message E (user_id req) (PText (message req));
     mret (inl response))
    (λ e, mret (inr {| reply_user_id := user_id req;
                       response := "Sorry, I encountered an error: " +:+ exn_str E e |}))
  ≫= λ first,
  match first with
  | inr error_reply => mret error_reply
  | inl response =>
      response ← tool_loop E fuel req response;
      mret (final_reply req response)
  end.

(** A gateway that asks for the weather again and again. *)
Definition insistent : Env := oracle (λ _, Ok (lisbon_replies 0)).

(** The parameter names of all tools of [tools.py]. *)
Definition parameter_names : list string :=
  ["city"; "query"; "preferences"; "preference"; "user_id";
   "origin_city"; "destination_city"; "travel_date"].

(** A response whose text is followed by a tool call. *)
Definition says_then_asks (text name : string) (args : Args) : Response :=
  {| candidates :=
       [{| content :=
             {| role := model;
                parts := [PText text;
                          PFunctionCall {| fc_name := name; fc_args := Some args |}] |} |}] |}.

(** A process in which [u1] and [u2] both have a session. *)
Definition two_user_world : World :=
  {| chat_sessions :=
       <["u1" := live_session]>
         (<["u2" := start_chat [policy_statement; policy_acknowledgment]]> ∅);
     prefs_db := [preference_of "u1" "I am vegetarian"];
     gateway_calls := 1;
     trace := [EvStore OpDocstore; EvSend "u1" (PText "Plan a trip to Lisbon")] |}.

(** The model adds a keyword that no tool has. *)
Definition weather_with_units : Args :=
  <["units" := VStr "metric"]> (<["city" := VStr "Lisbon"]> ∅).

(** A response that names a tool and has no argument mapping. *)
Definition asks_bare (name : string) : Response :=
  {| candidates :=
       [{| content :=
             {| role := model;
                parts := [PFunctionCall {| fc_name := name; fc_args := None |}] |} |}] |}.

(** * Properties *)

(** ** Running the monad *)

Lemma bind_returns {A B} (c : M A) (k : A → M B) w a w' :
  c w = (Returns a, w') → (c ≫= k) w = k a w'.
Proof. intros H. unfold mbind, M_bind. by rewrite H. Qed.

Lemma bind_raises {A B} (c : M A) (k : A → M B) w e w' :
  c w = (Raises e, w') → (c ≫= k) w = (Raises e, w').
Proof. intros H. unfold mbind, M_bind. by rewrite H. Qed.

Lemma try_returns {A} (body : M A) handler w a w' :
  body w = (Returns a, w') → try_except body handler w = (Returns a, w').
Proof. intros H. unfold try_except. by rewrite H. Qed.

Ltac run := unfold mbind, M_bind, mret, M_ret, try_except, raise, get_world, modify, emit; simpl.

(** ** Session creation *)

Section Sessions.

Variable E : Env.

(** Joining preference strings never raises and is [String.concat]. *)
Lemma str_join_strings sep (prefs : list string) w :
  str_join sep (JStr <$> prefs) w = (Returns (String.concat sep prefs), w).
Proof.
  induction prefs as [|p [|q rest] IH]; [done | done |].
  change (str_join sep (JStr <$> p :: q :: rest) w)
    with ((tail ← str_join sep (JStr <$> q :: rest); mret (p +:+ sep +:+ tail)) w).
  by rewrite (bind_returns _ _ _ _ _ IH).
Qed.

(** What [load_preferences] hands back is a JSON list of strings or a JSON
    error object, and it never raises. *)
Lemma load_preferences_shape user_id w :
  ∃ w', (∃ prefs, load_preferences E user_id w = (Returns (json_dumps (JList (JStr <$> prefs))), w'))
      ∨ (∃ msg, load_preferences E user_id w = (Returns (json_dumps (JObj [("error", JStr msg)])), w')).
Proof.
  unfold load_preferences, py_not. destruct (truthy user_id); simpl.
  - unfold store_op. run.
    destruct (store_fault E (length (trace w)) OpDocstore) as [e|]; simpl.
    + eexists. right. by eexists.
    + destruct (prefs_db w) as [|d docs]; simpl.
      * eexists. left. by exists [].
      * destruct (collect_prefs user_id (d :: docs)) as [|p ps] eqn:Hc.
        -- eexists. left. by exists [].
        -- eexists. left. by exists (p :: ps).
  - eexists. right. by eexists.
Qed.

(** The history that seeding produces from [history], given what loading
    returned. *)
Lemma seed_history_list uid hist w prefs w1 :
  load_preferences E (VStr uid) w = (Returns (json_dumps (JList (JStr <$> prefs))), w1) →
  seed_history E uid hist w =
    (Returns (match prefs with
              | [] => hist
              | _ => hist ++ [preferences_turn (String.concat "; " prefs)]
                          ++ [preferences_acknowledgment]
              end), w1).
Proof.
  intros Hload. unfold seed_history.
  apply try_returns.
  rewrite (bind_returns _ _ _ _ _ Hload).
  unfold json_dumps, json_loads.
  rewrite (bind_returns (mret _) _ w1 (JList (JStr <$> prefs)) w1 eq_refl).
  destruct prefs as [|p ps]; [done|].
  change (JStr <$> p :: ps) with (JStr p :: (JStr <$> ps)). cbv iota.
  change (JStr p :: (JStr <$> ps)) with (JStr <$> (p :: ps)).
  rewrite (bind_returns _ _ _ _ _ (str_join_strings "; " (p :: ps) w1)).
  by rewrite <- app_assoc.
Qed.

Lemma seed_history_error uid hist w msg w1 :
  load_preferences E (VStr uid) w = (Returns (json_dumps (JObj [("error", JStr msg)])), w1) →
  seed_history E uid hist w = (Returns hist, w1).
Proof.
  intros Hload. unfold seed_history.
  apply try_returns. by rewrite (bind_returns _ _ _ _ _ Hload).
Qed.

Lemma get_chat_session_new uid w hist w1 :
  chat_sessions w !! uid = None →
  seed_history E uid [policy_statement; policy_acknowledgment] w = (Returns hist, w1) →
  get_chat_session E uid w =
    (Returns (start_chat hist),
     set_chat_sessions (λ sessions, <[uid := start_chat hist]> sessions) w1).
Proof.
  intros Hnone Hseed. unfold get_chat_session.
  unfold mbind at 1, M_bind at 1, get_world. simpl. rewrite Hnone.
  by rewrite (bind_returns _ _ _ _ _ Hseed).
Qed.

(** C2.  The history of a newly created session is the fixed policy pair
    (statement with role [user], acknowledgment with role [model]),
    followed either by nothing or by exactly one preference pair (a [user]
    turn and a [model] acknowledgment); no other turn is in it. *)
Theorem new_session_begins_with_policy uid w :
  chat_sessions w !! uid = None →
  ∃ chat w',
    get_chat_session E uid w = (Returns chat, w')
    ∧ chat_sessions w' !! uid = Some chat
    ∧ take 2 (history chat) = [policy_statement; policy_acknowledgment]
    ∧ role policy_statement = user ∧ role policy_acknowledgment = model
    ∧ (drop 2 (history chat) = []
       ∨ ∃ summary,
           drop 2 (history chat) = [preferences_turn summary; preferences_acknowledgment]
           ∧ role (preferences_turn summary) = user
           ∧ role preferences_acknowledgment = model).
Proof.
  intros Hnone.
  destruct (load_preferences_shape (VStr uid) w) as [w1 [[prefs Hload]|[msg Hload]]].
  - pose proof (seed_history_list uid [policy_statement; policy_acknowledgment] w prefs w1 Hload)
      as Hseed.
    eexists _, _. split; [exact (get_chat_session_new uid w _ w1 Hnone Hseed)|].
    split; [apply lookup_insert_eq|].
    destruct prefs as [|p ps]; simpl.
    + repeat split; auto.
    + repeat split; eauto.
  - pose proof (seed_history_error uid [policy_statement; policy_acknowledgment] w msg w1 Hload)
      as Hseed.
    eexists _, _. split; [exact (get_chat_session_new uid w _ w1 Hnone Hseed)|].
    split; [apply lookup_insert_eq|].
    simpl. repeat split; auto.
Qed.

(** C3.  When loading returns one or more preferences, session creation
    appends exactly two turns to the policy pair: one user turn whose
    single part is the text [Please remember these are my long-term
    preferences: ] followed by all of them joined by [; ], and one model
    turn whose single part is the fixed acknowledgment.  When loading
    returns none, nothing is appended. *)
Theorem preferences_seed_one_pair uid w prefs w1 :
  chat_sessions w !! uid = None →
  load_preferences E (VStr uid) w = (Returns (json_dumps (JList (JStr <$> prefs))), w1) →
  ∃ chat,
    get_chat_session E uid w
      = (Returns chat, set_chat_sessions (λ sessions, <[uid := chat]> sessions) w1)
    ∧ (prefs = [] → history chat = [policy_statement; policy_acknowledgment])
    ∧ (prefs ≠ [] →
       history chat =
         [policy_statement; policy_acknowledgment;
          {| role := user;
             parts := [PText ("Please remember these are my long-term preferences: "
                              +:+ String.concat "; " prefs)] |};
          {| role := model;
             parts := [PText "Understood. I have loaded your preferences."] |}]).
Proof.
  intros Hnone Hload.
  pose proof (seed_history_list uid [policy_statement; policy_acknowledgment] w prefs w1 Hload)
    as Hseed.
  eexists. split; [exact (get_chat_session_new uid w _ w1 Hnone Hseed)|].
  destruct prefs as [|p ps]; split; intros; first [congruence | reflexivity].
Qed.

(** C4.  Looking up a user who already has a session returns that session
    and leaves the whole process state as it was: no turn is added or
    changed, the preference store is not read, no other session is
    touched. *)
Theorem existing_session_returned_unchanged uid w chat :
  chat_sessions w !! uid = Some chat →
  get_chat_session E uid w = (Returns chat, w).
Proof.
  intros Hsome. unfold get_chat_session.
  unfold mbind, M_bind, get_world. simpl. by rewrite Hsome.
Qed.

End Sessions.

Lemma new_session_begins_with_policy_witness :
  chat_sessions stocked_world !! "u1" = None
  ∧ ∃ chat w',
    get_chat_session (scripted []) "u1" stocked_world = (Returns chat, w')
    ∧ chat_sessions w' !! "u1" = Some chat
    ∧ take 2 (history chat) = [policy_statement; policy_acknowledgment]
    ∧ role policy_statement = user ∧ role policy_acknowledgment = model
    ∧ (drop 2 (history chat) = []
       ∨ ∃ summary,
           drop 2 (history chat) = [preferences_turn summary; preferences_acknowledgment]
           ∧ role (preferences_turn summary) = user
           ∧ role preferences_acknowledgment = model).
Proof.
  split; [reflexivity|].
  apply (new_session_begins_with_policy (scripted []) "u1" stocked_world). reflexivity.
Defined.

Lemma preferences_seed_one_pair_witness :
  chat_sessions stocked_world !! "u1" = None
  ∧ ∃ chat,
    get_chat_session (scripted []) "u1" stocked_world
      = (Returns chat,
         set_chat_sessions (λ sessions, <["u1" := chat]> sessions)
           (log (EvStore OpDocstore) stocked_world))
    ∧ (["I am vegetarian"; "I like museums"] = [] →
       history chat = [policy_statement; policy_acknowledgment])
    ∧ (["I am vegetarian"; "I like museums"] ≠ [] →
       history chat =
         [policy_statement; policy_acknowledgment;
          {| role := user;
             parts := [PText "Please remember these are my long-term preferences: I am vegetarian; I like museums"] |};
          {| role := model;
             parts := [PText "Understood. I have loaded your preferences."] |}]).
Proof.
  split; [reflexivity|].
  apply (preferences_seed_one_pair (scripted []) "u1" stocked_world
           ["I am vegetarian"; "I like museums"] (log (EvStore OpDocstore) stocked_world)).
  - reflexivity.
  - vm_compute. reflexivity.
Defined.

Lemma existing_session_returned_unchanged_witness :
  chat_sessions live_world !! "u1" = Some live_session
  ∧ get_chat_session (scripted []) "u1" live_world = (Returns live_session, live_world).
Proof.
  split; [reflexivity|].
  apply (existing_session_returned_unchanged (scripted []) "u1" live_world live_session).
  reflexivity.
Defined.

(** ** Tools stay within their frame *)

Lemma tool_frame_refl w : tool_frame w w.
Proof. by repeat split. Qed.

Lemma tool_frame_trans w1 w2 w3 : tool_frame w1 w2 → tool_frame w2 w3 → tool_frame w1 w3.
Proof.
  intros (Hs1 & Hg1 & Hr1 & Hp1) (Hs2 & Hg2 & Hr2 & Hp2).
  repeat split; [congruence..|by etrans].
Qed.

Lemma tool_rounds_log ev w :
  tool_rounds (log ev w) = tool_rounds w + (if is_tool_result ev then 1 else 0).
Proof.
  unfold tool_rounds. simpl. rewrite List.filter_app, length_app. simpl.
  by destruct (is_tool_result ev).
Qed.

Lemma tool_frame_log ev w : is_tool_result ev = false → tool_frame w (log ev w).
Proof.
  intros Hev. repeat split.
  - rewrite tool_rounds_log, Hev. lia.
  - by apply prefix_app_r.
Qed.

Lemma framed_ret {A} (a : A) : framed (mret a).
Proof. intros w. split; [apply tool_frame_refl | done]. Qed.

Lemma framed_raise {A} e : framed (raise (A := A) e).
Proof. intros w. split; [apply tool_frame_refl | done]. Qed.

Lemma framed_bind {A B} (c : M A) (k : A → M B) :
  framed c → (∀ a, framed (k a)) → framed (c ≫= k).
Proof.
  intros Hc Hk w. unfold mbind, M_bind.
  destruct (Hc w) as [Hf Hne]. destruct (c w) as [[a| e |] w']; simpl in *; try done.
  destruct (Hk a w') as [Hf' Hne']. split; [by eapply tool_frame_trans | done].
Qed.

Lemma framed_try {A} (body : M A) handler :
  framed body → (∀ e, framed (handler e)) → framed (try_except body handler).
Proof.
  intros Hb Hh w. unfold try_except.
  destruct (Hb w) as [Hf Hne]. destruct (body w) as [[a| e |] w']; simpl in *; try done.
  destruct (Hh e w') as [Hf' Hne']. split; [by eapply tool_frame_trans | done].
Qed.

Lemma framed_emit ev : is_tool_result ev = false → framed (emit ev).
Proof. intros Hev w. split; [by apply tool_frame_log | done]. Qed.

Section Tools.

Variable E : Env.

Lemma framed_store_op op : framed (store_op E op).
Proof.
  intros w. unfold store_op.
  destruct (store_fault E (length (trace w)) op); (split; [by apply tool_frame_log | done]).
Qed.

Lemma framed_load_preferences user_id : framed (load_preferences E user_id).
Proof.
  unfold load_preferences. destruct (py_not user_id); [apply framed_ret|].
  apply framed_try; [|intros; apply framed_ret].
  apply framed_bind; [apply framed_store_op|]. intros _.
  apply framed_bind; [intros w; split; [apply tool_frame_refl | done]|]. intros w.
  destruct (prefs_db w); [apply framed_ret|].
  destruct (collect_prefs _ _); apply framed_ret.
Qed.

Lemma framed_save_preference preference user_id :
  framed (save_preference E preference user_id).
Proof.
  unfold save_preference. destruct (py_not user_id); [apply framed_ret|].
  apply framed_try; [|intros; apply framed_ret].
  destruct preference; try apply framed_raise.
  apply framed_bind; [apply framed_store_op|]. intros _.
  apply framed_bind; [intros w; split; [by repeat split | done]|]. intros _.
  apply framed_bind; [apply framed_store_op|]. intros _.
  apply framed_ret.
Qed.

Lemma framed_def fname sg body kwargs :
  (∀ kw, framed (body kw)) → framed (def fname sg body kwargs).
Proof. intros Hb. unfold def. destruct (binds sg kwargs); [apply Hb | apply framed_raise]. Qed.

Lemma framed_external fname sg kwargs : framed (external E fname sg kwargs).
Proof.
  apply framed_def. intros kw w.
  destruct (external_tool E (length (trace w)) fname kw); (split; [apply tool_frame_refl | done]).
Qed.

(** The registry holds the seven tools of [available_tools] and nothing
    else. *)
Lemma tool_registry_lookup name f :
  tool_registry E !! name = Some f → (name, f) ∈ available_tools E.
Proof.
  intros H. apply elem_of_list_to_map_2 in H. exact H.
Qed.

Lemma framed_registry name f kwargs :
  tool_registry E !! name = Some f → framed (f kwargs).
Proof.
  intros H. apply tool_registry_lookup in H. unfold available_tools in H.
  repeat (apply elem_of_cons in H as [H|H];
          [injection H as -> ->;
           first [apply framed_external
                 | apply framed_def; intros; first [apply framed_save_preference
                                                   | apply framed_load_preferences]]|]).
  by apply elem_of_nil in H.
Qed.

End Tools.

(** ** The dispatch loop *)





Section Dispatch.

Variable E : Env.

Lemma send_message_answered chat msg w r :
  gateway E (gateway_calls w) = Ok r →
  send_message E chat msg w = (Returns r, exchanged chat msg r w).
Proof. intros H. unfold send_message. by rewrite H. Qed.

Lemma send_message_failed chat msg w e :
  gateway E (gateway_calls w) = Fail e →
  send_message E chat msg w = (Raises e, count_gateway_call (log (EvSend chat msg) w)).
Proof. intros H. unfold send_message. by rewrite H. Qed.



(** One iteration on a tool call that carries its argument mapping. *)
Lemma tool_loop_call fuel req response name args w :
  leading_part response
    = Some (PFunctionCall {| fc_name := name; fc_args := Some args |}) →
  tool_loop E (S fuel) req response w =
    match tool_registry E !! name with
    | None =>
        (send_message E (user_id req)
           (PFunctionResponse name (PayloadError ("Unknown tool: " +:+ name)))
         ≫= tool_loop E fuel req) w
    | Some function_to_call =>
        let tool_args := inject_identity req name args in
        (try_except
           (tool_result ← function_to_call tool_args;
            send_message E (user_id req)
              (PFunctionResponse name (PayloadResult tool_result)))
           (λ e, send_message E (user_id req)
                   (PFunctionResponse name
                      (PayloadError ("Error executing tool: " +:+ exn_str E e))))
         ≫= tool_loop E fuel req) (log (EvTool name tool_args) w)
    end.
Proof.
  intros Hlead. simpl. rewrite Hlead. simpl.
  unfold function_call_set. simpl. rewrite orb_true_r. simpl.
  by destruct (tool_registry E !! name).
Qed.

(** One iteration on a tool call that names a tool and has no argument
    mapping: copying the arguments raises, before the registry is
    consulted, and nothing else has happened. *)
Lemma tool_loop_bare_call fuel req response name w :
  leading_part response = Some (PFunctionCall {| fc_name := name; fc_args := None |}) →
  name ≠ "" →
  tool_loop E (S fuel) req response w = (Raises AttributeError_items, w).
Proof.
  intros Hlead Hname. simpl. rewrite Hlead. simpl.
  unfold function_call_set. simpl.
  apply String.eqb_neq in Hname. by rewrite Hname.
Qed.

(** The two readings of a response off its data, in terms of the
    accessors of the endpoint. *)
Lemma requests_tool_leading r :
  requests_tool r =
    match leading_part r with
    | Some (PFunctionCall {| fc_args := Some _ |}) => true
    | _ => false
    end.
Proof.
  unfold requests_tool, leading_part.
  destruct (candidates r) as [|[[rl [|[| [name [args|]] | |] ps]]] cs]; done.
Qed.

Lemma leads_with_call_leading r :
  leads_with_call r =
    match leading_part r with
    | Some (PFunctionCall fc) => function_call_set fc
    | _ => false
    end.
Proof.
  unfold leads_with_call, leading_part, function_call_set.
  destruct (candidates r) as [|[[rl [|[| [name [args|]] | |] ps]]] cs]; try done.
  - simpl. rewrite orb_true_r. by destruct name.
  - simpl. rewrite orb_false_r. by destruct name.
Qed.

Lemma requests_tool_true response :
  requests_tool response = true →
  ∃ name args,
    leading_part response
      = Some (PFunctionCall {| fc_name := name; fc_args := Some args |}).
Proof.
  rewrite requests_tool_leading.
  destruct (leading_part response) as [[| [name [args|]] | |]|]; try done.
  intros _. by exists name, args.
Qed.

Lemma exchanged_gateway_calls chat msg r w :
  gateway_calls (exchanged chat msg r w) = S (gateway_calls w).
Proof. done. Qed.

Lemma exchanged_tool_rounds chat name payload r w :
  tool_rounds (exchanged chat (PFunctionResponse name payload) r w) = S (tool_rounds w).
Proof.
  unfold exchanged, tool_rounds. simpl. rewrite List.filter_app, length_app. simpl. lia.
Qed.

(** One tool round, when the gateway answers the tool result with [r']:
    whatever the tool call was, the loop goes on from [r'] after exactly
    one gateway call. *)
Lemma tool_round req response w r' :
  requests_tool response = true →
  gateway E (gateway_calls w) = Ok r' →
  ∃ w1, (∀ fuel, tool_loop E (S fuel) req response w = tool_loop E fuel req r' w1)
        ∧ gateway_calls w1 = S (gateway_calls w)
        ∧ tool_rounds w1 = S (tool_rounds w).
Proof.
  intros Hreq Hgw. apply requests_tool_true in Hreq as (name & margs & Hlead).
  destruct (tool_registry E !! name) as [f|] eqn:Hf.
  - set (args := inject_identity req name margs).
    set (call := emit (EvTool name args) ≫= λ _, f args).
    assert (framed call) as Hcall.
    { apply framed_bind; [by apply framed_emit|]. intros _. by eapply framed_registry. }
    destruct (Hcall w) as [(_ & Hg & Hr & _) Hne].
    assert (∀ w0, call w0 = f args (log (EvTool name args) w0)) as Hcall_eq by done.
    destruct (call w) as [[t| e |] wh] eqn:Hrun; simpl in Hg, Hr, Hne; [| |done].
    + eexists (exchanged _ _ r' wh). split; [|split].
      * intros fuel. rewrite (tool_loop_call _ _ _ _ _ _ Hlead), Hf. fold args.
        unfold mbind at 1, M_bind at 1. unfold try_except.
        unfold mbind at 1, M_bind at 1. rewrite <- Hcall_eq, Hrun.
        rewrite (send_message_answered _ _ wh r') by by rewrite Hg. done.
      * by rewrite exchanged_gateway_calls, Hg.
      * by rewrite exchanged_tool_rounds, Hr.
    + eexists (exchanged _ _ r' wh). split; [|split].
      * intros fuel. rewrite (tool_loop_call _ _ _ _ _ _ Hlead), Hf. fold args.
        unfold mbind at 1, M_bind at 1. unfold try_except.
        unfold mbind at 1, M_bind at 1. rewrite <- Hcall_eq, Hrun.
        rewrite (send_message_answered _ _ wh r') by by rewrite Hg. done.
      * by rewrite exchanged_gateway_calls, Hg.
      * by rewrite exchanged_tool_rounds, Hr.
  - eexists (exchanged _ _ r' w). split; [|split].
    + intros fuel. rewrite (tool_loop_call _ _ _ _ _ _ Hlead), Hf.
      unfold mbind, M_bind. by rewrite (send_message_answered _ _ w r').
    + by rewrite exchanged_gateway_calls.
    + by rewrite exchanged_tool_rounds.
Qed.

Lemma tool_loop_break fuel req response w :
  leads_with_call response = false →
  tool_loop E (S fuel) req response w = (Returns response, w).
Proof.
  rewrite leads_with_call_leading. simpl.
  destruct (leading_part response) as [[| fc | |]|]; try done.
  simpl. by intros ->.
Qed.




(** C6.  When the handler of a known tool raises, the loop catches the
    exception and sends the gateway a tool result under the tool's name
    whose payload is the error [Error executing tool: <message>], and goes
    on with the gateway's answer; the handler's exception does not leave
    the loop. *)
Theorem handler_failure_reported fuel req response name args (f : Args → M Text) e w w1 :
  leading_part response
    = Some (PFunctionCall {| fc_name := name; fc_args := Some args |}) →
  tool_registry E !! name = Some f →
  let tool_args := inject_identity req name args in
  f tool_args (log (EvTool name tool_args) w) = (Raises e, w1) →
  let msg := PFunctionResponse name
               (PayloadError ("Error executing tool: " +:+ exn_str E e)) in
  tool_loop E (S fuel) req response w
    = (send_message E (user_id req) msg ≫= tool_loop E fuel req) w1
  ∧ ∀ r', gateway E (gateway_calls w1) = Ok r' →
          tool_loop E (S fuel) req response w
            = tool_loop E fuel req r' (exchanged (user_id req) msg r' w1).
Proof.
  intros Hlead Hsome tool_args Hraise msg.
  assert (tool_loop E (S fuel) req response w
          = (send_message E (user_id req) msg ≫= tool_loop E fuel req) w1) as Hstep.
  { rewrite (tool_loop_call _ _ _ _ _ _ Hlead), Hsome. fold tool_args.
    unfold mbind at 1, M_bind at 1. unfold try_except.
    unfold mbind at 1, M_bind at 1. by rewrite Hraise. }
  split; [exact Hstep|].
  intros r' Hgw. rewrite Hstep. by apply bind_returns, send_message_answered.
Qed.



Lemma inject_identity_tool req name args :
  name ∈ identity_tools →
  inject_identity req name args = <["user_id" := VStr (user_id req)]> args.
Proof. intros H. unfold inject_identity. by rewrite bool_decide_eq_true_2. Qed.


(** C9.  When the response that ends the loop has no candidates, or its
    first candidate has no parts, or its leading part has no text, the
    request returns the generic apology in the response field. *)
Theorem empty_response_apology fuel req w chat w1 r0 w2 r w3 :
  get_chat_session E (user_id req) w = (Returns chat, w1) →
  send_message E (user_id req) (PText (message req)) w1 = (Returns r0, w2) →
  tool_loop E fuel req r0 w2 = (Returns r, w3) →
  (candidates r = []
   ∨ ∃ c cs, candidates r = c :: cs
             ∧ (parts (content c) = []
                ∨ ∃ p ps, parts (content c) = p :: ps ∧ part_text p = "")) →
  chat_endpoint E fuel req w
    = (Returns {| reply_user_id := user_id req; response := "Sorry, I encountered an error." |},
       w3).
Proof.
  intros Hsession Hsend Hloop Hempty. unfold chat_endpoint.
  rewrite (bind_returns _ _ _ _ _ Hsession).
  unfold mbind at 1, M_bind at 1. unfold try_except.
  rewrite (bind_returns _ _ _ _ _ Hsend). simpl.
  rewrite (bind_returns _ _ _ _ _ Hloop). simpl.
  unfold final_reply, leading_part, apology.
  destruct Hempty as [-> | (c & cs & -> & [-> | (p & ps & -> & Htext)])]; try done.
  by rewrite Htext.
Qed.

End Dispatch.


Lemma handler_failure_reported_witness :
  let E := scripted [Ok (says "Which city?")] in
  let e := TypeError_call "get_weather" ∅ in
  let w1 := log (EvTool "get_weather" ∅) fresh_world in
  let msg := PFunctionResponse "get_weather"
               (PayloadError
                  "Error executing tool: get_weather() missing 1 required positional argument: 'city'") in
  leading_part (asks "get_weather" ∅) = Some (PFunctionCall weather_call_without_city)
  ∧ tool_registry E !! "get_weather" = Some (get_weather E)
  ∧ get_weather E ∅ w1 = (Raises e, w1)
  ∧ tool_loop E 3 lisbon_request (asks "get_weather" ∅) fresh_world
    = tool_loop E 2 lisbon_request (says "Which city?")
        (exchanged "u1" msg (says "Which city?") w1).
Proof.
  intros E e w1 msg.
  split; [reflexivity|]. split; [reflexivity|]. split; [reflexivity|].
  exact (proj2 (handler_failure_reported E 2 lisbon_request (asks "get_weather" ∅)
                  "get_weather" ∅ (get_weather E) e fresh_world w1
                  eq_refl eq_refl eq_refl)
               (says "Which city?") eq_refl).
Defined.



Lemma empty_response_apology_witness :
  let E := scripted [Ok {| candidates := [] |}] in
  let chat := start_chat [policy_statement; policy_acknowledgment] in
  let w1 := set_chat_sessions (λ sessions, <["u1" := chat]> sessions)
              (log (EvStore OpDocstore) fresh_world) in
  let w2 := exchanged "u1" (PText "Plan a trip to Lisbon") {| candidates := [] |} w1 in
  get_chat_session E "u1" fresh_world = (Returns chat, w1)
  ∧ send_message E "u1" (PText "Plan a trip to Lisbon") w1
    = (Returns {| candidates := [] |}, w2)
  ∧ tool_loop E 4 lisbon_request {| candidates := [] |} w2
    = (Returns {| candidates := [] |}, w2)
  ∧ chat_endpoint E 4 lisbon_request fresh_world
    = (Returns {| reply_user_id := "u1"; response := "Sorry, I encountered an error." |}, w2).
Proof.
  intros E chat w1 w2.
  split; [reflexivity|]. split; [reflexivity|]. split; [reflexivity|].
  apply (empty_response_apology E 4 lisbon_request fresh_world chat w1
           {| candidates := [] |} w2 {| candidates := [] |} w2 eq_refl eq_refl eq_refl).
  by left.
Defined.

(** ** Failures of the Model Gateway *)

(** The guarded path: a failure of the first send is turned into an error
    text for the user, after that one gateway call. *)
Lemma initial_send_failure_reported E fuel req w chat w1 e :
  get_chat_session E (user_id req) w = (Returns chat, w1) →
  gateway E (gateway_calls w1) = Fail e →
  chat_endpoint E fuel req w
    = (Returns {| reply_user_id := user_id req;
                  response := "Sorry, I encountered an error: " +:+ exn_str E e |},
       count_gateway_call (log (EvSend (user_id req) (PText (message req))) w1)).
Proof.
  intros Hsession Hgw. unfold chat_endpoint.
  rewrite (bind_returns _ _ _ _ _ Hsession).
  unfold mbind at 1, M_bind at 1. unfold try_except.
  by rewrite (bind_raises _ _ _ _ _ (send_message_failed E _ _ _ _ Hgw)).
Qed.

(** C1.  Gateway failures inside the loop are not turned into an error
    text.  When the gateway fails on the result of an unknown tool, or on
    the error result of a tool that raised, the exception leaves
    [chat_endpoint]; when it fails on the result of a tool that returned,
    the failure is taken for a tool failure and the gateway is called once
    more. *)
Theorem gateway_failure_inside_loop :
  (chat_endpoint (scripted [Ok (asks "book_train" ∅)]) 5 lisbon_request fresh_world).1
    = Raises unavailable
  ∧ (chat_endpoint (scripted [Ok (asks "get_weather" ∅)]) 5 lisbon_request fresh_world).1
    = Raises unavailable
  ∧ let run := chat_endpoint
                 (scripted [Ok (lisbon_replies 0); Fail unavailable; Ok (lisbon_replies 1)])
                 5 lisbon_request fresh_world in
    run.1 = Returns {| reply_user_id := "u1";
                       response := "Lisbon will be sunny; here is your plan." |}
    ∧ gateway_calls run.2 = 3
    ∧ List.filter is_tool_result (trace run.2)
      = [EvSend "u1" (function_response "get_weather"
                        (PayloadResult (Plain "result of get_weather")));
         EvSend "u1" (function_response "get_weather"
                        (PayloadError "Error executing tool: 503 Service Unavailable"))].
Proof. vm_compute. repeat split. Qed.

(** ** The identity guard of the preference tools *)

(** C10 as stated fails: a request may carry the empty string as
    [user_id], and the injected identity is then one the guard rejects. *)
Lemma empty_user_id_reaches_guard :
  ¬ (∀ (req : ChatRequest) (name : string) (args : Args),
       name ∈ identity_tools →
       py_not (arg (inject_identity req name args) "user_id") = false).
Proof.
  intros H.
  specialize (H anonymous_request "load_preferences" ∅).
  assert ("load_preferences" ∈ identity_tools) as Hin by (do 2 constructor).
  specialize (H Hin). vm_compute in H. discriminate.
Qed.

(** The run behind it: the anonymous request makes the loop send the
    guard's error object to the gateway as the tool's result. *)
Lemma anonymous_load_run :
  trace (chat_endpoint (scripted [Ok (asks "load_preferences" ∅); Ok (says "ok")])
           5 anonymous_request fresh_world).2
  = [EvSend "" (PText "hi");
     EvTool "load_preferences" (<["user_id" := VStr ""]> ∅);
     EvSend "" (function_response "load_preferences" (PayloadResult user_id_error))].
Proof. vm_compute. reflexivity. Qed.

(** C10, amended.  Called with a [user_id] that is missing ([None]) or
    empty (any value Python treats as false), [save_preference] and
    [load_preferences] return the JSON error object and leave the process
    state, the preference store included, as it was.  In the dispatch loop
    the two tools get the request's [user_id]; when that is not the empty
    string the guard lets the call through. *)
Theorem user_id_guard E preference missing req name args w :
  py_not missing = true →
  name ∈ identity_tools →
  user_id req ≠ "" →
  (save_preference E preference missing w = (Returns user_id_error, w)
   ∧ load_preferences E missing w = (Returns user_id_error, w))
  ∧ user_id_error
    = JsonText (JObj [("error", JStr "System error: user_id was not provided to tool.")])
  ∧ (py_not VNone = true ∧ py_not (VStr "") = true)
  ∧ arg (inject_identity req name args) "user_id" = VStr (user_id req)
  ∧ py_not (arg (inject_identity req name args) "user_id") = false.
Proof.
  intros Hmissing Hname Hid.
  split; [|split; [done|split; [done|]]].
  - unfold save_preference, load_preferences. by rewrite Hmissing.
  - rewrite (inject_identity_tool req name args Hname).
    unfold arg. rewrite lookup_insert_eq. simpl. split; [done|].
    unfold py_not. simpl. apply String.eqb_neq in Hid. by rewrite Hid.
Qed.

Lemma user_id_guard_witness :
  py_not VNone = true
  ∧ "save_preference" ∈ identity_tools
  ∧ user_id lisbon_request ≠ ""
  ∧ (save_preference (scripted []) (VStr "I am vegetarian") VNone stocked_world
       = (Returns user_id_error, stocked_world)
     ∧ load_preferences (scripted []) VNone stocked_world
       = (Returns user_id_error, stocked_world))
  ∧ user_id_error
    = JsonText (JObj [("error", JStr "System error: user_id was not provided to tool.")])
  ∧ (py_not VNone = true ∧ py_not (VStr "") = true)
  ∧ arg (inject_identity lisbon_request "save_preference" spoofed_save) "user_id" = VStr "u1"
  ∧ py_not (arg (inject_identity lisbon_request "save_preference" spoofed_save) "user_id")
    = false.
Proof.
  split; [reflexivity|]. split; [constructor|]. split; [discriminate|].
  apply (user_id_guard (scripted []) (VStr "I am vegetarian") VNone lisbon_request
           "save_preference" spoofed_save stocked_world).
  - reflexivity.
  - constructor.
  - discriminate.
Defined.

(** * Further properties of the code *)

(** ** The preference tools on the store *)

Section Preferences.

Variable E : Env.

Lemma collect_prefs_from acc user_id docstore :
  foldl (λ user_prefs doc,
           if py_eqb (default VNone (metadata doc !! "user_id")) user_id
           then user_prefs ++ [page_content doc]
           else user_prefs)
        acc docstore
  = acc ++ stored_preferences user_id docstore.
Proof.
  revert acc. induction docstore as [|doc docs IH]; intros acc; simpl.
  - by rewrite app_nil_r.
  - rewrite IH. unfold stored_preferences, owned_by. simpl.
    destruct (py_eqb _ user_id); simpl; [by rewrite <- app_assoc | done].
Qed.

Lemma collect_prefs_stored user_id docstore :
  collect_prefs user_id docstore = stored_preferences user_id docstore.
Proof. unfold collect_prefs. by rewrite collect_prefs_from. Qed.

(** X1.  With a [user_id] that is not empty and a store that answers,
    [load_preferences] returns the JSON list of the texts of exactly the
    documents whose metadata carry that [user_id], in the order they were
    stored (the empty list when there is none), after one read of the
    store. *)
Theorem load_preferences_lists_owned user_id w :
  py_not user_id = false →
  store_fault E (length (trace w)) OpDocstore = None →
  load_preferences E user_id w
    = (Returns (json_dumps (JList (JStr <$> stored_preferences user_id (prefs_db w)))),
       log (EvStore OpDocstore) w).
Proof.
  intros Hid Hok. unfold load_preferences. rewrite Hid.
  unfold try_except, mbind, M_bind, store_op, get_world. rewrite Hok. simpl.
  destruct (prefs_db w) as [|doc docs] eqn:Hdb; [done|].
  rewrite collect_prefs_stored.
  by destruct (stored_preferences user_id (doc :: docs)).
Qed.

(** X2.  [load_preferences] never raises and never writes: whatever the
    [user_id] and whatever the store does, it returns a string and leaves
    the documents and the sessions as they were, having read the store at
    most once. *)
Theorem load_preferences_read_only user_id w :
  ∃ t w',
    load_preferences E user_id w = (Returns t, w')
    ∧ prefs_db w' = prefs_db w
    ∧ chat_sessions w' = chat_sessions w
    ∧ (w' = w ∨ w' = log (EvStore OpDocstore) w).
Proof.
  unfold load_preferences. destruct (py_not user_id).
  { eexists _, w. split_and!; [done..|by left]. }
  unfold try_except, mbind, M_bind, store_op, get_world.
  destruct (store_fault E (length (trace w)) OpDocstore); simpl.
  { eexists _, _. split_and!; [done..|by right]. }
  destruct (prefs_db w) as [|doc docs] eqn:Hdb; simpl.
  { eexists _, _. split_and!; [done | by simpl | done | by right]. }
  destruct (collect_prefs _ _); eexists _, _;
    (split_and!; [done | by simpl | done | by right]).
Qed.

Lemma save_preference_stored p u w :
  u ≠ "" →
  store_fault E (length (trace w)) OpAddDocuments = None →
  store_fault E (S (length (trace w))) OpSaveLocal = None →
  save_preference E (VStr p) (VStr u) w
    = (Returns (Plain ("Successfully saved preference: '" +:+ p +:+ "'")),
       saved (preference_of u p) w).
Proof.
  intros Hu Hadd Hsave. unfold save_preference, py_not. simpl.
  apply String.eqb_neq in Hu. rewrite Hu. simpl.
  unfold try_except, mbind, M_bind, store_op, modify. rewrite Hadd. simpl.
  rewrite length_app. simpl. rewrite Nat.add_1_r, Hsave. done.
Qed.

Lemma owned_by_preference_of a b p :
  owned_by (VStr b) (preference_of a p) = String.eqb a b.
Proof. unfold owned_by, preference_of. simpl. by rewrite lookup_insert_eq. Qed.

(** X3.  Round trip through the store.  With a store that does not fail,
    saving the text [p] for the user [u] succeeds, and loading for [u]
    right after returns what the store held for [u] before followed by
    [p]. *)
Theorem save_then_load p u w :
  u ≠ "" →
  no_faults E →
  save_preference E (VStr p) (VStr u) w
    = (Returns (Plain ("Successfully saved preference: '" +:+ p +:+ "'")),
       saved (preference_of u p) w)
  ∧ load_preferences E (VStr u) (saved (preference_of u p) w)
    = (Returns (json_dumps
                  (JList (JStr <$> stored_preferences (VStr u) (prefs_db w) ++ [p]))),
       log (EvStore OpDocstore) (saved (preference_of u p) w)).
Proof.
  intros Hu Hok. split; [by apply save_preference_stored|].
  rewrite load_preferences_lists_owned; [|by unfold py_not; simpl;
                                          apply String.eqb_neq in Hu; rewrite Hu | done].
  do 3 f_equal. simpl. unfold stored_preferences.
  rewrite List.filter_app, fmap_app. simpl.
  by rewrite owned_by_preference_of, String.eqb_refl.
Qed.

(** What [save_preference] can do to the documents: nothing, or append
    one document with the given text and [user_id]. *)
Lemma save_preference_store preference user_id w :
  prefs_db (save_preference E preference user_id w).2 = prefs_db w
  ∨ ∃ p, preference = VStr p
         ∧ prefs_db (save_preference E preference user_id w).2
           = prefs_db w ++ [{| page_content := p;
                               metadata := <["user_id" := user_id]>
                                             (<["type" := VStr "preference"]> ∅) |}].
Proof.
  unfold save_preference. destruct (py_not user_id); [by left|].
  destruct preference as [| | |p|]; try by left.
  unfold try_except, mbind, M_bind, store_op, modify.
  destruct (store_fault E (length (trace w)) OpAddDocuments); simpl; [by left|].
  right. exists p. split; [done|].
  by destruct (store_fault E _ OpSaveLocal).
Qed.

(** X4.  [save_preference] never raises, and the store is append-only
    under it: afterwards the documents are the ones before, or the ones
    before followed by one document that carries the given text and the
    given [user_id]; the sessions are not touched. *)
Theorem save_preference_appends preference user_id w :
  ∃ t w',
    save_preference E preference user_id w = (Returns t, w')
    ∧ chat_sessions w' = chat_sessions w
    ∧ (prefs_db w' = prefs_db w
       ∨ ∃ p, preference = VStr p
              ∧ prefs_db w'
                = prefs_db w ++ [{| page_content := p;
                                    metadata := <["user_id" := user_id]>
                                                  (<["type" := VStr "preference"]> ∅) |}]).
Proof.
  pose proof (save_preference_store preference user_id w) as Hstore.
  destruct (framed_save_preference E preference user_id w) as [(Hs & _) _].
  assert (∃ t, (save_preference E preference user_id w).1 = Returns t) as [t Ht].
  { unfold save_preference. destruct (py_not user_id); [by eexists|].
    destruct preference as [| | |p|]; try by eexists.
    unfold try_except, mbind, M_bind, store_op, modify.
    destruct (store_fault E (length (trace w)) OpAddDocuments); simpl; [by eexists|].
    destruct (store_fault E _ OpSaveLocal); by eexists. }
  destruct (save_preference E preference user_id w) as [o w'] eqn:Hrun. simpl in *.
  subst o. by exists t, w'.
Qed.

(** X5.  Users are kept apart: whatever is saved for the user [a], and
    whether or not the store fails on the way, the preferences the store
    holds for another user [b] stay the same. *)
Theorem save_preference_isolated preference a b w :
  a ≠ b →
  stored_preferences (VStr b) (prefs_db (save_preference E preference (VStr a) w).2)
  = stored_preferences (VStr b) (prefs_db w).
Proof.
  intros Hab.
  destruct (save_preference_store preference (VStr a) w) as [-> | (p & _ & ->)]; [done|].
  unfold stored_preferences. rewrite List.filter_app. simpl.
  change {| page_content := p; metadata := _ |} with (preference_of a p).
  rewrite owned_by_preference_of.
  apply String.eqb_neq in Hab. rewrite Hab. simpl. by rewrite app_nil_r.
Qed.

(** X6.  A failed write to disk is reported as an error although the
    preference is kept: when [add_documents] goes through and [save_local]
    raises, [save_preference] returns the error text, and the new document
    is in the live store, so that a later load returns it. *)
Theorem save_preference_partial_write p u w e :
  u ≠ "" →
  store_fault E (length (trace w)) OpAddDocuments = None →
  store_fault E (S (length (trace w))) OpSaveLocal = Some e →
  save_preference E (VStr p) (VStr u) w
    = (Returns (Plain ("Error saving preference: " +:+ exn_str E e)),
       saved (preference_of u p) w)
  ∧ stored_preferences (VStr u) (prefs_db (saved (preference_of u p) w))
    = stored_preferences (VStr u) (prefs_db w) ++ [p].
Proof.
  intros Hu Hadd Hsave. split.
  - unfold save_preference, py_not. simpl.
    apply String.eqb_neq in Hu. rewrite Hu. simpl.
    unfold try_except, mbind, M_bind, store_op, modify. rewrite Hadd. simpl.
    rewrite length_app. simpl. by rewrite Nat.add_1_r, Hsave.
  - simpl. unfold stored_preferences. rewrite List.filter_app, fmap_app. simpl.
    by rewrite owned_by_preference_of, String.eqb_refl.
Qed.

End Preferences.

Lemma load_preferences_lists_owned_witness :
  py_not (VStr "u1") = false
  ∧ store_fault (scripted []) (length (trace stocked_world)) OpDocstore = None
  ∧ load_preferences (scripted []) (VStr "u1") stocked_world
    = (Returns (json_dumps (JList [JStr "I am vegetarian"; JStr "I like museums"])),
       log (EvStore OpDocstore) stocked_world).
Proof.
  split; [reflexivity|]. split; [reflexivity|].
  apply (load_preferences_lists_owned (scripted []) (VStr "u1") stocked_world); reflexivity.
Defined.

Lemma save_then_load_witness :
  "u1" ≠ ""
  ∧ no_faults (scripted [])
  ∧ save_preference (scripted []) (VStr "I love hiking") (VStr "u1") stocked_world
    = (Returns (Plain "Successfully saved preference: 'I love hiking'"),
       saved (preference_of "u1" "I love hiking") stocked_world)
  ∧ load_preferences (scripted []) (VStr "u1")
      (saved (preference_of "u1" "I love hiking") stocked_world)
    = (Returns (json_dumps
                  (JList [JStr "I am vegetarian"; JStr "I like museums";
                          JStr "I love hiking"])),
       log (EvStore OpDocstore) (saved (preference_of "u1" "I love hiking") stocked_world)).
Proof.
  split; [discriminate|]. split; [by intros ??|].
  apply (save_then_load (scripted []) "I love hiking" "u1" stocked_world).
  - discriminate.
  - by intros ??.
Defined.

Lemma save_preference_isolated_witness :
  "u1" ≠ "u2"
  ∧ stored_preferences (VStr "u2")
      (prefs_db (save_preference (scripted []) (VStr "I love hiking") (VStr "u1")
                   stocked_world).2)
    = stored_preferences (VStr "u2") (prefs_db stocked_world).
Proof.
  split; [discriminate|].
  apply (save_preference_isolated (scripted []) (VStr "I love hiking") "u1" "u2" stocked_world).
  discriminate.
Defined.

Lemma save_preference_partial_write_witness :
  let E := faulty OpSaveLocal [] in
  "u1" ≠ ""
  ∧ store_fault E (length (trace stocked_world)) OpAddDocuments = None
  ∧ store_fault E (S (length (trace stocked_world))) OpSaveLocal
    = Some (ExternalError "store unavailable")
  ∧ save_preference E (VStr "I love hiking") (VStr "u1") stocked_world
    = (Returns (Plain "Error saving preference: store unavailable"),
       saved (preference_of "u1" "I love hiking") stocked_world)
  ∧ stored_preferences (VStr "u1")
      (prefs_db (saved (preference_of "u1" "I love hiking") stocked_world))
    = stored_preferences (VStr "u1") (prefs_db stocked_world) ++ ["I love hiking"].
Proof.
  intros E. split; [discriminate|]. split; [reflexivity|]. split; [reflexivity|].
  apply (save_preference_partial_write E "I love hiking" "u1" stocked_world
           (ExternalError "store unavailable")).
  - discriminate.
  - reflexivity.
  - reflexivity.
Defined.

(** ** Sessions and the store *)

Section MoreSessions.

Variable E : Env.

(** The two ways [get_chat_session] goes: it finds the session and changes
    nothing, or it stores a new one that starts with the policy pair.  It
    always returns and never calls the gateway. *)
Lemma get_chat_session_cases uid w :
  ∃ chat w',
    get_chat_session E uid w = (Returns chat, w')
    ∧ gateway_calls w' = gateway_calls w
    ∧ tool_rounds w' = tool_rounds w
    ∧ ((chat_sessions w !! uid = Some chat ∧ w' = w)
       ∨ (chat_sessions w !! uid = None
          ∧ chat_sessions w' = <[uid := chat]> (chat_sessions w)
          ∧ take 2 (history chat) = [policy_statement; policy_acknowledgment])).
Proof.
  destruct (chat_sessions w !! uid) as [chat|] eqn:Hlook.
  - exists chat, w. split_and!; [|done|done|by left].
    unfold get_chat_session, mbind, M_bind, get_world. simpl. by rewrite Hlook.
  - destruct (framed_load_preferences E (VStr uid) w) as [(Hs & Hg & Hr & _) _].
    destruct (load_preferences_shape E (VStr uid) w) as [w1 [[prefs Hload]|[msg Hload]]];
      rewrite Hload in Hs, Hg, Hr; simpl in Hs, Hg, Hr.
    + pose proof (seed_history_list E uid [policy_statement; policy_acknowledgment]
                    w prefs w1 Hload) as Hseed.
      eexists _, _. split; [exact (get_chat_session_new E uid w _ w1 Hlook Hseed)|].
      split_and!; [done | done | right].
      split_and!; [done | by simpl; rewrite Hs | by destruct prefs].
    + pose proof (seed_history_error E uid [policy_statement; policy_acknowledgment]
                    w msg w1 Hload) as Hseed.
      eexists _, _. split; [exact (get_chat_session_new E uid w _ w1 Hlook Hseed)|].
      split_and!; [done | done | right].
      split_and!; [done | by simpl; rewrite Hs | done].
Qed.

(** X7.  Asking twice gives the same session: the session a call of
    [get_chat_session] returns, new or not, is the one a second call
    returns, and the second call changes nothing. *)
Theorem get_chat_session_twice uid w chat w1 :
  get_chat_session E uid w = (Returns chat, w1) →
  get_chat_session E uid w1 = (Returns chat, w1).
Proof.
  intros Hfirst.
  assert (chat_sessions w1 !! uid = Some chat) as Hlook.
  { destruct (get_chat_session_cases uid w) as (c & w' & Hrun & _ & _ & Hcases).
    rewrite Hrun in Hfirst. injection Hfirst as -> ->.
    destruct Hcases as [[Hsome ->] | (_ & -> & _)]; [done | apply lookup_insert_eq]. }
  unfold get_chat_session, mbind, M_bind, get_world. simpl. by rewrite Hlook.
Qed.

(** X8.  A preference saved while no session of the user is live shows up
    in the next session: with a store that does not fail, the session
    created after saving [p] for [u] has, right after the policy pair, the
    user turn whose text is [Please remember these are my long-term
    preferences: ] followed by what the store held for [u] and then [p],
    joined by [; ], and the model's acknowledgment. *)
Theorem saved_preference_seeds_next_session p u w :
  u ≠ "" →
  no_faults E →
  chat_sessions w !! u = None →
  ∃ chat w',
    get_chat_session E u (saved (preference_of u p) w) = (Returns chat, w')
    ∧ history chat
      = [policy_statement; policy_acknowledgment;
         {| role := user;
            parts := [PText ("Please remember these are my long-term preferences: "
                             +:+ String.concat "; "
                                   (stored_preferences (VStr u) (prefs_db w) ++ [p]))] |};
         {| role := model;
            parts := [PText "Understood. I have loaded your preferences."] |}].
Proof.
  intros Hu Hok Hnone.
  destruct (save_then_load E p u w Hu Hok) as [_ Hload].
  pose proof (seed_history_list E u [policy_statement; policy_acknowledgment] _ _ _ Hload)
    as Hseed.
  assert (chat_sessions (saved (preference_of u p) w) !! u = None) as Hnone' by exact Hnone.
  eexists _, _. split; [exact (get_chat_session_new E u _ _ _ Hnone' Hseed)|].
  by destruct (stored_preferences (VStr u) (prefs_db w)).
Qed.

(** X9.  A store that fails when the preferences are read does not stop
    a session from being created: the failure is swallowed and the new
    session holds the policy pair and nothing else. *)
Theorem session_created_despite_store_fault uid w e :
  uid ≠ "" →
  chat_sessions w !! uid = None →
  store_fault E (length (trace w)) OpDocstore = Some e →
  get_chat_session E uid w
    = (Returns (start_chat [policy_statement; policy_acknowledgment]),
       set_chat_sessions
         (λ sessions, <[uid := start_chat [policy_statement; policy_acknowledgment]]> sessions)
         (log (EvStore OpDocstore) w)).
Proof.
  intros Hu Hnone Hfault.
  apply get_chat_session_new; [done|].
  apply seed_history_error with (msg := exn_str E e).
  unfold load_preferences, py_not. simpl.
  apply String.eqb_neq in Hu. rewrite Hu. simpl.
  unfold try_except, mbind, M_bind, store_op. by rewrite Hfault.
Qed.

End MoreSessions.

Lemma get_chat_session_twice_witness :
  let chat :=
    start_chat [policy_statement; policy_acknowledgment;
                preferences_turn "I am vegetarian; I like museums";
                preferences_acknowledgment] in
  let w1 := set_chat_sessions (λ sessions, <["u1" := chat]> sessions)
              (log (EvStore OpDocstore) stocked_world) in
  get_chat_session (scripted []) "u1" stocked_world = (Returns chat, w1)
  ∧ get_chat_session (scripted []) "u1" w1 = (Returns chat, w1).
Proof.
  intros chat w1. split; [reflexivity|].
  apply (get_chat_session_twice (scripted []) "u1" stocked_world chat w1). reflexivity.
Defined.

Lemma saved_preference_seeds_next_session_witness :
  "u1" ≠ ""
  ∧ no_faults (scripted [])
  ∧ chat_sessions stocked_world !! "u1" = None
  ∧ ∃ chat w',
      get_chat_session (scripted []) "u1"
        (saved (preference_of "u1" "I love hiking") stocked_world) = (Returns chat, w')
      ∧ history chat
        = [policy_statement; policy_acknowledgment;
           {| role := user;
              parts := [PText "Please remember these are my long-term preferences: I am vegetarian; I like museums; I love hiking"] |};
           {| role := model;
              parts := [PText "Understood. I have loaded your preferences."] |}].
Proof.
  split; [discriminate|]. split; [by intros ??|]. split; [reflexivity|].
  apply (saved_preference_seeds_next_session (scripted []) "I love hiking" "u1" stocked_world).
  - discriminate.
  - by intros ??.
  - reflexivity.
Defined.

Lemma session_created_despite_store_fault_witness :
  let E := faulty OpDocstore [] in
  "u1" ≠ ""
  ∧ chat_sessions stocked_world !! "u1" = None
  ∧ store_fault E (length (trace stocked_world)) OpDocstore
    = Some (ExternalError "store unavailable")
  ∧ get_chat_session E "u1" stocked_world
    = (Returns (start_chat [policy_statement; policy_acknowledgment]),
       set_chat_sessions
         (λ sessions,
            <["u1" := start_chat [policy_statement; policy_acknowledgment]]> sessions)
         (log (EvStore OpDocstore) stocked_world)).
Proof.
  intros E. split; [discriminate|]. split; [reflexivity|]. split; [reflexivity|].
  apply (session_created_despite_store_fault E "u1" stocked_world
           (ExternalError "store unavailable")).
  - discriminate.
  - reflexivity.
  - reflexivity.
Defined.

(** ** What a request does to the sessions *)

Lemma chat_endpoint_converse E fuel req :
  chat_endpoint E fuel req = get_chat_session E (user_id req) ≫= λ _, converse E fuel req.
Proof. reflexivity. Qed.

Section Steps.

Context (R : relation (gmap string ChatSession)) `{!PreOrder R}.

Lemma step_ret {A} (a : A) : sessions_step R (mret a).
Proof. intros w. simpl. reflexivity. Qed.

Lemma step_bind {A B} (c : M A) (k : A → M B) :
  sessions_step R c → (∀ a, sessions_step R (k a)) → sessions_step R (c ≫= k).
Proof.
  intros Hc Hk w. unfold mbind, M_bind. specialize (Hc w).
  destruct (c w) as [[a| e |] w']; simpl in *; try done.
  etrans; [exact Hc | apply Hk].
Qed.

Lemma step_try {A} (body : M A) handler :
  sessions_step R body → (∀ e, sessions_step R (handler e)) →
  sessions_step R (try_except body handler).
Proof.
  intros Hb Hh w. unfold try_except. specialize (Hb w).
  destruct (body w) as [[a| e |] w']; simpl in *; try done.
  etrans; [exact Hb | apply Hh].
Qed.

Lemma step_framed {A} (c : M A) : framed c → sessions_step R c.
Proof. intros Hc w. destruct (Hc w) as [(-> & _) _]. reflexivity. Qed.

Variable E : Env.
Variable uid : string.

Hypothesis Hsend : ∀ msg r m, R m (alter (record_exchange msg r) uid m).
Hypothesis Hinsert : ∀ chat m, m !! uid = None → R m (<[uid := chat]> m).

Lemma step_send_message msg : sessions_step R (send_message E uid msg).
Proof.
  intros w. unfold send_message.
  destruct (gateway E (gateway_calls w)); simpl; [apply Hsend | reflexivity].
Qed.

Lemma step_tool_loop fuel req response :
  user_id req = uid → sessions_step R (tool_loop E fuel req response).
Proof.
  intros Hreq. revert response.
  induction fuel as [|fuel IH]; intros response; [intros w; simpl; reflexivity|].
  simpl. rewrite Hreq.
  destruct (leading_part response) as [part|]; [|apply step_ret].
  destruct (part_function_call part) as [fc|]; [|apply step_ret].
  destruct (fc_args fc) as [args|]; [|intros w; simpl; reflexivity].
  destruct (tool_registry E !! fc_name fc) as [f|] eqn:Hf.
  - apply step_bind; [|intros; apply IH].
    apply step_try; [|intros; apply step_send_message].
    apply step_bind; [|intros; apply step_send_message].
    apply step_framed, framed_bind; [by apply framed_emit|].
    intros _. by eapply framed_registry.
  - apply step_bind; [apply step_send_message | intros; apply IH].
Qed.

Lemma step_converse fuel req :
  user_id req = uid → sessions_step R (converse E fuel req).
Proof.
  intros Hreq. unfold converse. rewrite Hreq.
  apply step_bind.
  - apply step_try; [|intros; apply step_ret].
    apply step_bind; [apply step_send_message | intros; apply step_ret].
  - intros [response|error_reply]; [|apply step_ret].
    apply step_bind; [by apply step_tool_loop | intros; apply step_ret].
Qed.

Lemma step_get_chat_session : sessions_step R (get_chat_session E uid).
Proof.
  intros w.
  destruct (get_chat_session_cases E uid w) as (chat & w' & -> & _ & _ & Hcases). simpl.
  destruct Hcases as [[_ ->] | (Hnone & -> & _)]; [reflexivity | by apply Hinsert].
Qed.

Lemma step_chat_endpoint fuel req :
  user_id req = uid → sessions_step R (chat_endpoint E fuel req).
Proof.
  intros Hreq. rewrite chat_endpoint_converse, Hreq.
  apply step_bind; [apply step_get_chat_session | intros; by apply step_converse].
Qed.

End Steps.

#[local] Instance untouched_preorder other : PreOrder (untouched other).
Proof.
  split; [by intros m | intros m1 m2 m3 H12 H23]. unfold untouched in *. congruence.
Qed.

#[local] Instance grown_preorder : PreOrder grown.
Proof.
  split.
  - intros m uid chat Hlook. by exists chat.
  - intros m1 m2 m3 H12 H23 uid chat Hlook.
    destruct (H12 uid chat Hlook) as (chat2 & Hlook2 & Hpre2).
    destruct (H23 uid chat2 Hlook2) as (chat3 & Hlook3 & Hpre3).
    exists chat3. split; [done | by etrans].
Qed.

Lemma untouched_alter other uid f (m : gmap string ChatSession) :
  other ≠ uid → untouched other m (alter f uid m).
Proof. intros Hne. unfold untouched. by rewrite lookup_alter_ne. Qed.

Lemma untouched_insert other uid chat (m : gmap string ChatSession) :
  other ≠ uid → untouched other m (<[uid := chat]> m).
Proof. intros Hne. unfold untouched. by rewrite lookup_insert_ne. Qed.

Lemma grown_exchange msg r uid (m : gmap string ChatSession) :
  grown m (alter (record_exchange msg r) uid m).
Proof.
  intros k chat Hlook. destruct (decide (k = uid)) as [->|Hne].
  - exists (record_exchange msg r chat). split.
    + by rewrite lookup_alter_eq, Hlook.
    + simpl. by apply prefix_app_r.
  - exists chat. split; [by rewrite lookup_alter_ne | done].
Qed.

Lemma grown_insert uid chat (m : gmap string ChatSession) :
  m !! uid = None → grown m (<[uid := chat]> m).
Proof.
  intros Hnone k c Hlook. exists c. split; [|done].
  rewrite lookup_insert_ne; [done|]. intros ->. congruence.
Qed.

Lemma take_two_prefix {A} (l1 l2 : list A) a b :
  l1 `prefix_of` l2 → take 2 l1 = [a; b] → take 2 l2 = [a; b].
Proof.
  intros [k ->] Htake. destruct l1 as [|x [|y l1]]; try done.
Qed.

(** X10.  Running a registered tool, with any arguments, never touches a
    session and never calls the Model Gateway (so a preference saved in
    the middle of a conversation does not change the live history); the
    tool returns or raises, and only adds to the trace. *)
Theorem tools_leave_sessions E name (f : Args → M Text) kwargs w :
  tool_registry E !! name = Some f →
  chat_sessions (f kwargs w).2 = chat_sessions w
  ∧ gateway_calls (f kwargs w).2 = gateway_calls w
  ∧ trace w `prefix_of` trace (f kwargs w).2
  ∧ ((∃ t, (f kwargs w).1 = Returns t) ∨ (∃ e, (f kwargs w).1 = Raises e)).
Proof.
  intros Hf. destruct (framed_registry E name f kwargs Hf w) as [(Hs & Hg & _ & Hp) Hne].
  split_and!; [done..|].
  destruct (f kwargs w) as [[t|e|] w']; simpl in *; [left | right | done]; by eexists.
Qed.

(** X11.  A request of one user leaves the sessions of all other users
    exactly as they were, whatever the gateway, the tools and the store
    do. *)
Theorem other_sessions_untouched E fuel req other w :
  other ≠ user_id req →
  chat_sessions (chat_endpoint E fuel req w).2 !! other = chat_sessions w !! other.
Proof.
  intros Hne.
  apply (step_chat_endpoint (untouched other) E (user_id req)); [| |done].
  - intros. by apply untouched_alter.
  - intros. by apply untouched_insert.
Qed.

(** X12.  Histories are append-only: after a request every session that
    existed before is still there, and its history is the old one with
    turns added at the end. *)
Theorem histories_only_grow E fuel req w uid chat :
  chat_sessions w !! uid = Some chat →
  ∃ chat',
    chat_sessions (chat_endpoint E fuel req w).2 !! uid = Some chat'
    ∧ history chat `prefix_of` history chat'.
Proof.
  revert uid chat.
  apply (step_chat_endpoint grown E (user_id req)); [| |done].
  - intros. apply grown_exchange.
  - intros. by apply grown_insert.
Qed.

(** X13.  The policy pair stays at the head of every history: if every
    session of the process starts with the policy pair before a request,
    every session does so after it, the one the request may have created
    included; and the requesting user has a session afterwards. *)
Theorem policy_pair_invariant E fuel req w :
  well_seeded w →
  well_seeded (chat_endpoint E fuel req w).2
  ∧ is_Some (chat_sessions (chat_endpoint E fuel req w).2 !! user_id req).
Proof.
  intros Hseeded. rewrite chat_endpoint_converse.
  destruct (get_chat_session_cases E (user_id req) w)
    as (chat & w1 & Hrun & _ & _ & Hcases).
  rewrite (bind_returns _ _ _ _ _ Hrun).
  assert (chat_sessions w1 !! user_id req = Some chat
          ∧ well_seeded w1) as [Hmine Hseeded1].
  { destruct Hcases as [[Hsome ->] | (Hnone & Hmap & Htake)]; [done|].
    split; [rewrite Hmap; apply lookup_insert_eq|].
    intros uid c. rewrite Hmap. destruct (decide (uid = user_id req)) as [->|Hne].
    - rewrite lookup_insert_eq. by intros [= <-].
    - rewrite lookup_insert_ne by done. apply Hseeded. }
  pose proof (step_converse grown E (user_id req)
                (λ msg r m, grown_exchange msg r (user_id req) m)
                fuel req eq_refl w1) as Hgrown.
  split.
  - intros uid c Hlook.
    destruct (chat_sessions w1 !! uid) as [c1|] eqn:Hlook1.
    + destruct (Hgrown uid c1 Hlook1) as (c' & Hlook' & Hpre).
      rewrite Hlook in Hlook'. injection Hlook' as <-.
      eapply take_two_prefix; [exact Hpre | by eapply Hseeded1].
    + assert (uid ≠ user_id req) as Hne by (intros ->; congruence).
      pose proof (step_converse (untouched uid) E (user_id req)
                    (λ msg r m, untouched_alter uid (user_id req) _ m Hne)
                    fuel req eq_refl w1) as Hsame.
      unfold untouched in Hsame. congruence.
  - destruct (Hgrown _ _ Hmine) as (c' & Hlook' & _). by eexists.
Qed.

(** ** The endpoint and the loop *)

Section Endpoint.

Variable E : Env.

Lemma final_reply_well_formed req r :
  reply_user_id (final_reply req r) = user_id req
  ∧ response (final_reply req r) ≠ "".
Proof.
  unfold final_reply. destruct (leading_part r) as [part|]; [|done].
  destruct (String.eqb (part_text part) "") eqn:Htext; simpl; [done|].
  split; [done|]. by apply String.eqb_neq.
Qed.

(** X14.  Whenever [chat_endpoint] returns, the reply carries the
    [user_id] of the request and a response text that is not empty: the
    model's text, the apology, or the error text of the first send. *)
Theorem reply_well_formed fuel req w rep w' :
  chat_endpoint E fuel req w = (Returns rep, w') →
  reply_user_id rep = user_id req ∧ response rep ≠ "".
Proof.
  rewrite chat_endpoint_converse.
  destruct (get_chat_session_cases E (user_id req) w) as (chat & w1 & Hrun & _).
  rewrite (bind_returns _ _ _ _ _ Hrun).
  unfold converse, try_except, mbind, M_bind, send_message.
  destruct (gateway E (gateway_calls w1)) as [r|e]; simpl.
  - destruct (tool_loop E fuel req r _) as [[r'|e'|] w2]; [|done|done].
    intros [= <- <-]. apply final_reply_well_formed.
  - by intros [= <- <-].
Qed.

(** X15.  When the gateway answers the user's message with a part of
    text that is not empty, the request returns that text as it is,
    after one gateway call and no tool round. *)
Theorem text_reply_returned fuel req w r t :
  gateway E (gateway_calls w) = Ok r →
  leading_part r = Some (PText t) →
  t ≠ "" →
  ∃ w',
    chat_endpoint E (S fuel) req w
      = (Returns {| reply_user_id := user_id req; response := t |}, w')
    ∧ gateway_calls w' = S (gateway_calls w)
    ∧ tool_rounds w' = tool_rounds w.
Proof.
  intros Hgw Hlead Ht. rewrite chat_endpoint_converse.
  destruct (get_chat_session_cases E (user_id req) w) as (chat & w1 & Hrun & Hg & Hr & _).
  rewrite (bind_returns _ _ _ _ _ Hrun).
  exists (exchanged (user_id req) (PText (message req)) r w1). split_and!.
  - unfold converse, try_except. unfold mbind at 1, M_bind at 1.
    rewrite (bind_returns _ _ _ _ _ (send_message_answered E _ _ w1 r
                                       ltac:(by rewrite Hg))).
    unfold mbind at 1, M_bind at 1, mret at 1, M_ret at 1.
    rewrite (tool_loop_break E fuel req r _
               ltac:(by rewrite leads_with_call_leading, Hlead)).
    unfold mret, M_ret, final_reply. rewrite Hlead. simpl.
    apply String.eqb_neq in Ht. by rewrite Ht.
  - by rewrite exchanged_gateway_calls, Hg.
  - unfold exchanged, tool_rounds. simpl. rewrite List.filter_app, length_app. simpl.
    unfold tool_rounds in Hr. lia.
Qed.

(** X16.  The loop has no cap on its rounds: with a gateway that answers
    every tool result with another tool call, the loop is still running
    after any number of rounds, having made one gateway call per round. *)
Theorem tool_loop_has_no_cap req fuel : ∀ r0 w,
  (∀ k, ∃ r, gateway E k = Ok r ∧ requests_tool r = true) →
  requests_tool r0 = true →
  ∃ w',
    tool_loop E fuel req r0 w = (OutOfFuel, w')
    ∧ gateway_calls w' = gateway_calls w + fuel
    ∧ tool_rounds w' = tool_rounds w + fuel.
Proof.
  induction fuel as [|fuel IH]; intros r0 w Hgw Hreq.
  - exists w. split_and!; [done | lia | lia].
  - destruct (Hgw (gateway_calls w)) as (r' & Hr' & Hreq').
    destruct (tool_round E req r0 w r' Hreq Hr') as (w1 & Hstep & Hg1 & Hr1).
    destruct (IH r' w1 Hgw Hreq') as (w' & Hrun & Hg & Hr).
    exists w'. rewrite Hstep. split_and!; [done | lia | lia].
Qed.

(** X17.  Only the leading part of a response counts: two responses with
    the same leading part, whatever parts follow, lead to the same tool
    rounds and the same reply. *)
Theorem later_parts_ignored fuel req r1 r2 w :
  leading_part r1 = leading_part r2 →
  (tool_loop E fuel req r1 ≫= λ r, mret (final_reply req r)) w
  = (tool_loop E fuel req r2 ≫= λ r, mret (final_reply req r)) w.
Proof.
  intros Hsame.
  assert (final_reply req r1 = final_reply req r2) as Hfinal.
  { unfold final_reply. by rewrite Hsame. }
  destruct fuel as [|fuel]; [done|].
  unfold mbind, M_bind.
  destruct (leads_with_call r2) eqn:Hcall.
  - simpl. rewrite Hsame. rewrite leads_with_call_leading in Hcall.
    destruct (leading_part r2) as [[| fc | |]|]; try done.
    simpl. by rewrite Hcall.
  - rewrite (tool_loop_break E fuel req r2 w Hcall).
    rewrite (tool_loop_break E fuel req r1 w); [by rewrite Hfinal|].
    rewrite leads_with_call_leading in *. by rewrite Hsame.
Qed.

(** X18.  A failure of the very first send ends the request at once: the
    reply is the error text with the gateway's message, the gateway was
    called once, no tool ran, and the user's session is in place. *)
Theorem first_send_failure_reply fuel req w e :
  gateway E (gateway_calls w) = Fail e →
  ∃ w',
    chat_endpoint E fuel req w
      = (Returns {| reply_user_id := user_id req;
                    response := "Sorry, I encountered an error: " +:+ exn_str E e |}, w')
    ∧ gateway_calls w' = S (gateway_calls w)
    ∧ tool_rounds w' = tool_rounds w
    ∧ is_Some (chat_sessions w' !! user_id req).
Proof.
  intros Hgw.
  destruct (get_chat_session_cases E (user_id req) w)
    as (chat & w1 & Hrun & Hg & Hr & Hcases).
  rewrite <- Hg in Hgw.
  eexists. split; [exact (initial_send_failure_reported E fuel req w chat w1 e Hrun Hgw)|].
  split_and!.
  - simpl. by rewrite Hg.
  - rewrite <- Hr. unfold tool_rounds. simpl.
    rewrite List.filter_app, length_app. simpl. lia.
  - simpl. destruct Hcases as [[Hsome ->] | (_ & -> & _)]; [by eexists|].
    rewrite lookup_insert_eq. by eexists.
Qed.

End Endpoint.

(** ** The registry and the binding of arguments *)

Section Registry.

Variable E : Env.

(** X19.  The registry dispatches each tool of [available_tools] under its
    own name and knows no other name: a lookup gives a function exactly
    when the pair is in the list, and fails exactly for a name outside
    the seven. *)
Theorem tool_registry_names name :
  (∀ f : Args → M Text, tool_registry E !! name = Some f ↔ (name, f) ∈ available_tools E)
  ∧ (tool_registry E !! name = None
     ↔ name ∉ ["get_weather"; "web_search"; "find_hotels"; "search_knowledge";
               "save_preference"; "load_preferences"; "find_flights"]).
Proof.
  split.
  - intros f. unfold tool_registry. symmetry. apply elem_of_list_to_map.
    by apply (bool_decide_unpack _).
  - unfold tool_registry. symmetry. apply (not_elem_of_list_to_map (available_tools E)).
Qed.

Lemma binds_keywords sg (kwargs : Args) k :
  binds sg kwargs = true → is_Some (kwargs !! k) → k ∈ required sg ++ optional sg.
Proof.
  unfold binds. intros [_ Hall]%andb_prop [v Hv].
  apply bool_decide_eq_true in Hall. by apply (Hall k v).
Qed.

Lemma def_unbound fname sg body (kwargs : Args) k w :
  is_Some (kwargs !! k) → k ∉ required sg ++ optional sg →
  def fname sg body kwargs w = (Raises (TypeError_call fname kwargs), w).
Proof.
  intros Hk Hnot. unfold def.
  destruct (binds sg kwargs) eqn:Hb; [|done].
  destruct Hnot. by eapply binds_keywords.
Qed.

(** X20.  A keyword that is no parameter of any tool makes every
    registered tool fail at the call: it raises the binding error under
    its own name before its body runs, and the process state is
    unchanged. *)
Theorem unknown_keyword_rejected name (f : Args → M Text) (kwargs : Args) k w :
  tool_registry E !! name = Some f →
  is_Some (kwargs !! k) →
  k ∉ parameter_names →
  f kwargs w = (Raises (TypeError_call name kwargs), w).
Proof.
  intros Hf Hk Hnot. apply tool_registry_lookup in Hf. unfold available_tools in Hf.
  repeat (apply elem_of_cons in Hf as [Hf|Hf];
          [injection Hf as -> ->;
           apply (def_unbound _ _ _ kwargs k w Hk);
           intros Hin; apply Hnot; unfold parameter_names; simpl in Hin;
           repeat (apply elem_of_cons in Hin as [->|Hin]; [by repeat constructor|]);
           by apply elem_of_nil in Hin|]).
  by apply elem_of_nil in Hf.
Qed.

(** X21.  A preference saved through the dispatch loop is stored under
    the identity of the request, not under the one the model supplied:
    with a request [user_id] that is not empty and a store that does not
    fail, the call of [save_preference] with the model's arguments
    (a text under [preference], and possibly a [user_id]) appends the
    document that carries the text and the request's [user_id]. *)
Theorem saved_under_request_identity req (args : Args) p w :
  user_id req ≠ "" →
  no_faults E →
  args !! "preference" = Some (VStr p) →
  (∀ k, is_Some (args !! k) → k = "preference" ∨ k = "user_id") →
  tool_save_preference E (inject_identity req "save_preference" args) w
    = (Returns (Plain ("Successfully saved preference: '" +:+ p +:+ "'")),
       saved (preference_of (user_id req) p) w).
Proof.
  intros Hu Hok Hpref Hkeys.
  rewrite inject_identity_tool by constructor.
  unfold tool_save_preference, def.
  assert (binds {| required := ["preference"]; optional := ["user_id"] |}
            (<["user_id" := VStr (user_id req)]> args) = true) as ->.
  { unfold binds. simpl. apply andb_true_intro. split.
    - rewrite andb_true_r. apply bool_decide_eq_true.
      rewrite lookup_insert_ne by done. by eexists.
    - apply bool_decide_eq_true. intros k v Hkv.
      destruct (decide (k = "user_id")) as [->|Hne]; [set_solver|].
      rewrite lookup_insert_ne in Hkv by done.
      destruct (Hkeys k ltac:(by eexists)) as [-> | ->]; set_solver. }
  unfold arg. rewrite lookup_insert_eq, lookup_insert_ne, Hpref by done. simpl.
  by apply save_preference_stored.
Qed.

(** X22.  Preferences are read under the identity of the request too:
    with a request [user_id] that is not empty and a store that answers,
    the call of [load_preferences] from the loop returns the preferences
    stored for the request's [user_id], whatever [user_id] the model
    supplied. *)
Theorem loaded_under_request_identity req (args : Args) w :
  user_id req ≠ "" →
  store_fault E (length (trace w)) OpDocstore = None →
  (∀ k, is_Some (args !! k) → k = "user_id") →
  tool_load_preferences E (inject_identity req "load_preferences" args) w
    = (Returns (json_dumps
                  (JList (JStr <$> stored_preferences (VStr (user_id req)) (prefs_db w)))),
       log (EvStore OpDocstore) w).
Proof.
  intros Hu Hok Hkeys.
  rewrite inject_identity_tool by (do 2 constructor).
  unfold tool_load_preferences, def.
  assert (binds {| required := []; optional := ["user_id"] |}
            (<["user_id" := VStr (user_id req)]> args) = true) as ->.
  { unfold binds. simpl. apply bool_decide_eq_true. intros k v Hkv.
    destruct (decide (k = "user_id")) as [->|Hne]; [set_solver|].
    rewrite lookup_insert_ne in Hkv by done.
    destruct Hne. apply Hkeys. by eexists. }
  unfold arg. rewrite lookup_insert_eq. simpl.
  apply load_preferences_lists_owned; [|done].
  unfold py_not. simpl. apply String.eqb_neq in Hu. by rewrite Hu.
Qed.

End Registry.

Lemma tools_leave_sessions_witness :
  let E := scripted [] in
  let run := tool_save_preference E (<["user_id" := VStr "u1"]> spoofed_save) live_world in
  tool_registry E !! "save_preference" = Some (tool_save_preference E)
  ∧ chat_sessions run.2 = chat_sessions live_world
  ∧ gateway_calls run.2 = gateway_calls live_world
  ∧ trace live_world `prefix_of` trace run.2
  ∧ ((∃ t, run.1 = Returns t) ∨ (∃ e, run.1 = Raises e)).
Proof.
  intros E run. split; [reflexivity|].
  apply (tools_leave_sessions E "save_preference" (tool_save_preference E)
           (<["user_id" := VStr "u1"]> spoofed_save) live_world).
  reflexivity.
Defined.

Lemma other_sessions_untouched_witness :
  let E := scripted [Ok (says "Here is a plan.")] in
  "u2" ≠ user_id lisbon_request
  ∧ chat_sessions (chat_endpoint E 4 lisbon_request two_user_world).2 !! "u2"
    = chat_sessions two_user_world !! "u2".
Proof.
  intros E. split; [discriminate|].
  apply (other_sessions_untouched E 4 lisbon_request "u2" two_user_world). discriminate.
Defined.

Lemma histories_only_grow_witness :
  let E := scripted [Ok (says "Here is a plan.")] in
  chat_sessions two_user_world !! "u1" = Some live_session
  ∧ ∃ chat',
      chat_sessions (chat_endpoint E 4 lisbon_request two_user_world).2 !! "u1" = Some chat'
      ∧ history live_session `prefix_of` history chat'.
Proof.
  intros E. split; [reflexivity|].
  apply (histories_only_grow E 4 lisbon_request two_user_world "u1" live_session).
  reflexivity.
Defined.

Lemma two_user_world_seeded : well_seeded two_user_world.
Proof.
  intros uid chat. unfold two_user_world. simpl.
  destruct (decide (uid = "u1")) as [->|Hne1].
  { rewrite lookup_insert_eq. by intros [= <-]. }
  rewrite lookup_insert_ne by done.
  destruct (decide (uid = "u2")) as [->|Hne2].
  { rewrite lookup_insert_eq. by intros [= <-]. }
  by rewrite lookup_insert_ne, lookup_empty.
Qed.

Lemma policy_pair_invariant_witness :
  let E := scripted [Ok (lisbon_replies 0); Ok (lisbon_replies 1)] in
  let request := {| user_id := "u3"; message := "Plan a trip to Lisbon" |} in
  well_seeded two_user_world
  ∧ well_seeded (chat_endpoint E 4 request two_user_world).2
  ∧ is_Some (chat_sessions (chat_endpoint E 4 request two_user_world).2 !! "u3").
Proof.
  intros E request. split; [exact two_user_world_seeded|].
  apply (policy_pair_invariant E 4 request two_user_world). exact two_user_world_seeded.
Defined.

Lemma reply_well_formed_witness :
  let E := scripted [Ok {| candidates := [] |}] in
  let rep := {| reply_user_id := "u1"; response := "Sorry, I encountered an error." |} in
  let w' := exchanged "u1" (PText "Plan a trip to Lisbon") {| candidates := [] |}
              (set_chat_sessions
                 (λ sessions,
                    <["u1" := start_chat [policy_statement; policy_acknowledgment]]> sessions)
                 (log (EvStore OpDocstore) fresh_world)) in
  chat_endpoint E 4 lisbon_request fresh_world = (Returns rep, w')
  ∧ reply_user_id rep = user_id lisbon_request
  ∧ response rep ≠ "".
Proof.
  intros E rep w'. split; [reflexivity|].
  apply (reply_well_formed E 4 lisbon_request fresh_world rep w'). reflexivity.
Defined.

Lemma text_reply_returned_witness :
  let E := scripted [Ok (says "Here is a plan.")] in
  gateway E (gateway_calls fresh_world) = Ok (says "Here is a plan.")
  ∧ leading_part (says "Here is a plan.") = Some (PText "Here is a plan.")
  ∧ "Here is a plan." ≠ ""
  ∧ ∃ w',
      chat_endpoint E 1 lisbon_request fresh_world
        = (Returns {| reply_user_id := "u1"; response := "Here is a plan." |}, w')
      ∧ gateway_calls w' = S (gateway_calls fresh_world)
      ∧ tool_rounds w' = tool_rounds fresh_world.
Proof.
  intros E. split; [reflexivity|]. split; [reflexivity|]. split; [discriminate|].
  apply (text_reply_returned E 0 lisbon_request fresh_world (says "Here is a plan.")
           "Here is a plan.").
  - reflexivity.
  - reflexivity.
  - discriminate.
Defined.

Lemma tool_loop_has_no_cap_witness :
  (∀ k, ∃ r, gateway insistent k = Ok r ∧ requests_tool r = true)
  ∧ requests_tool (lisbon_replies 0) = true
  ∧ ∃ w',
      tool_loop insistent 10 lisbon_request (lisbon_replies 0) awaiting_world
        = (OutOfFuel, w')
      ∧ gateway_calls w' = gateway_calls awaiting_world + 10
      ∧ tool_rounds w' = tool_rounds awaiting_world + 10.
Proof.
  assert (∀ k, ∃ r, gateway insistent k = Ok r ∧ requests_tool r = true) as Hgw.
  { intros k. exists (lisbon_replies 0). split; reflexivity. }
  split; [exact Hgw|]. split; [reflexivity|].
  apply (tool_loop_has_no_cap insistent lisbon_request 10 (lisbon_replies 0)
           awaiting_world Hgw).
  reflexivity.
Defined.

Lemma later_parts_ignored_witness :
  let E := scripted [] in
  let r1 := says "Here is a plan." in
  let r2 := says_then_asks "Here is a plan." "get_weather" ∅ in
  leading_part r1 = leading_part r2
  ∧ (tool_loop E 3 lisbon_request r1 ≫= λ r, mret (final_reply lisbon_request r))
      awaiting_world
    = (tool_loop E 3 lisbon_request r2 ≫= λ r, mret (final_reply lisbon_request r))
        awaiting_world.
Proof.
  intros E r1 r2. split; [reflexivity|].
  apply (later_parts_ignored E 3 lisbon_request r1 r2 awaiting_world). reflexivity.
Defined.

Lemma first_send_failure_reply_witness :
  let E := scripted [] in
  gateway E (gateway_calls fresh_world) = Fail unavailable
  ∧ ∃ w',
      chat_endpoint E 4 lisbon_request fresh_world
        = (Returns {| reply_user_id := "u1";
                      response := "Sorry, I encountered an error: 503 Service Unavailable" |},
           w')
      ∧ gateway_calls w' = S (gateway_calls fresh_world)
      ∧ tool_rounds w' = tool_rounds fresh_world
      ∧ is_Some (chat_sessions w' !! "u1").
Proof.
  intros E. split; [reflexivity|].
  apply (first_send_failure_reply E 4 lisbon_request fresh_world unavailable). reflexivity.
Defined.

Lemma unknown_keyword_rejected_witness :
  let E := scripted [] in
  tool_registry E !! "get_weather" = Some (get_weather E)
  ∧ is_Some (weather_with_units !! "units")
  ∧ ("units" ∉ parameter_names)
  ∧ get_weather E weather_with_units awaiting_world
    = (Raises (TypeError_call "get_weather" weather_with_units), awaiting_world).
Proof.
  intros E.
  assert ("units" ∉ parameter_names) as Hnot.
  { intros Hin. unfold parameter_names in Hin.
    repeat (apply elem_of_cons in Hin as [Hin|Hin]; [discriminate|]).
    by apply elem_of_nil in Hin. }
  assert (is_Some (weather_with_units !! "units")) as Hk.
  { exists (VStr "metric"). reflexivity. }
  split; [reflexivity|]. split; [exact Hk|]. split; [exact Hnot|].
  apply (unknown_keyword_rejected E "get_weather" (get_weather E) weather_with_units
           "units" awaiting_world eq_refl Hk Hnot).
Defined.

Lemma saved_under_request_identity_witness :
  let E := scripted [] in
  user_id lisbon_request ≠ ""
  ∧ no_faults E
  ∧ spoofed_save !! "preference" = Some (VStr "I am vegetarian")
  ∧ (∀ k, is_Some (spoofed_save !! k) → k = "preference" ∨ k = "user_id")
  ∧ tool_save_preference E (inject_identity lisbon_request "save_preference" spoofed_save)
      fresh_world
    = (Returns (Plain "Successfully saved preference: 'I am vegetarian'"),
       saved (preference_of "u1" "I am vegetarian") fresh_world).
Proof.
  intros E.
  assert (∀ k, is_Some (spoofed_save !! k) → k = "preference" ∨ k = "user_id") as Hkeys.
  { intros k [v Hv]. unfold spoofed_save in Hv.
    destruct (decide (k = "user_id")) as [->|Hne]; [by right|].
    rewrite lookup_insert_ne in Hv by done.
    destruct (decide (k = "preference")) as [->|Hne']; [by left|].
    by rewrite lookup_insert_ne, lookup_empty in Hv. }
  split; [discriminate|]. split; [by intros ??|]. split; [reflexivity|].
  split; [exact Hkeys|].
  apply (saved_under_request_identity E lisbon_request spoofed_save "I am vegetarian"
           fresh_world); [discriminate | by intros ?? | reflexivity | exact Hkeys].
Defined.

Lemma loaded_under_request_identity_witness :
  let E := scripted [] in
  let args : Args := <["user_id" := VStr "u2"]> ∅ in
  user_id lisbon_request ≠ ""
  ∧ store_fault E (length (trace stocked_world)) OpDocstore = None
  ∧ (∀ k, is_Some (args !! k) → k = "user_id")
  ∧ tool_load_preferences E (inject_identity lisbon_request "load_preferences" args)
      stocked_world
    = (Returns (json_dumps (JList [JStr "I am vegetarian"; JStr "I like museums"])),
       log (EvStore OpDocstore) stocked_world).
Proof.
  intros E args.
  assert (∀ k, is_Some (args !! k) → k = "user_id") as Hkeys.
  { intros k [v Hv]. unfold args in Hv.
    destruct (decide (k = "user_id")) as [->|Hne]; [done|].
    by rewrite lookup_insert_ne, lookup_empty in Hv. }
  split; [discriminate|]. split; [reflexivity|]. split; [exact Hkeys|].
  apply (loaded_under_request_identity E lisbon_request args stocked_world);
    [discriminate | reflexivity | exact Hkeys].
Defined.

(** ** Tool calls without arguments *)

(** X23.  A tool call that names a tool but has no argument mapping ends
    the request with an exception: when the gateway answers the user's
    message with such a call, copying the arguments raises and the
    exception leaves [chat_endpoint], after the one gateway call, before
    the registry is consulted and with no tool round. *)
Theorem call_without_arguments_escapes E fuel req w r name :
  gateway E (gateway_calls w) = Ok r →
  leading_part r = Some (PFunctionCall {| fc_name := name; fc_args := None |}) →
  name ≠ "" →
  ∃ w',
    chat_endpoint E (S fuel) req w = (Raises AttributeError_items, w')
    ∧ gateway_calls w' = S (gateway_calls w)
    ∧ tool_rounds w' = tool_rounds w.
Proof.
  intros Hgw Hlead Hname. rewrite chat_endpoint_converse.
  destruct (get_chat_session_cases E (user_id req) w) as (chat & w1 & Hrun & Hg & Hr & _).
  rewrite (bind_returns _ _ _ _ _ Hrun).
  exists (exchanged (user_id req) (PText (message req)) r w1). split_and!.
  - unfold converse, try_except. unfold mbind at 1, M_bind at 1.
    rewrite (bind_returns _ _ _ _ _ (send_message_answered E _ _ w1 r
                                       ltac:(by rewrite Hg))).
    unfold mbind at 1, M_bind at 1, mret at 1, M_ret at 1.
    by rewrite (tool_loop_bare_call E fuel req r name _ Hlead Hname).
  - by rewrite exchanged_gateway_calls, Hg.
  - unfold exchanged, tool_rounds. simpl. rewrite List.filter_app, length_app. simpl.
    unfold tool_rounds in Hr. lia.
Qed.

Lemma call_without_arguments_escapes_witness :
  let E := scripted [Ok (asks_bare "get_weather")] in
  gateway E (gateway_calls fresh_world) = Ok (asks_bare "get_weather")
  ∧ leading_part (asks_bare "get_weather")
    = Some (PFunctionCall {| fc_name := "get_weather"; fc_args := None |})
  ∧ "get_weather" ≠ ""
  ∧ ∃ w',
      chat_endpoint E 1 lisbon_request fresh_world = (Raises AttributeError_items, w')
      ∧ gateway_calls w' = S (gateway_calls fresh_world)
      ∧ tool_rounds w' = tool_rounds fresh_world.
Proof.
  intros E. split; [reflexivity|]. split; [reflexivity|]. split; [discriminate|].
  apply (call_without_arguments_escapes E 0 lisbon_request fresh_world
           (asks_bare "get_weather") "get_weather").
  - reflexivity.
  - reflexivity.
  - discriminate.
Defined.
